(** * polybot: wallet activity monitors

    A shallow embedding of the two monitor programs of the repository,
    [main.py] (several wallets, one task each: module [Multi]) and
    [get_specific_activity.py] (one wallet, markets chosen by tag: module
    [Single]), and of the functions they share.

    Python values are embedded as the JSON values the upstream APIs can
    deliver, dictionaries as finite maps from field names to values, and
    the [requests] calls as steps of a small monad that threads the log of
    issued requests and carries the raised exception, if any.  What a
    request is answered with is decided by an oracle [net], a function of
    the position of the call in the log and of the request.

    Not modelled: console output, the text of the Telegram message (a
    message is identified by the activity records it reports), JSON
    objects nested inside a field, and the event loop: a monitor is
    modelled alone, turn by turn, not the tasks [main] of [main.py]
    starts for the wallets.
    Line 264 of [main.py] is indented with tabs; it is read as one more
    line of the message-building block it sits in. *)

From Stdlib Require Import ZArith QArith Qround Ascii String Lia.
From stdpp Require Import base option list gmap strings.

#[local] Open Scope string_scope.
#[local] Open Scope list_scope.
#[local] Open Scope Z_scope.
#[local] Set Warnings "-register-all".

(** ** Python values *)

Inductive pyval :=
| PyNone
| PyBool (b : bool)
| PyInt (z : Z)
| PyFloat (q : Q)
| PyStr (s : string)
| PyList (l : list pyval)
(** the floats that are no number: [inf], [-inf] (a JSON number too large
    for a double, such as [1e999], decodes to one) and [nan] *)
| PyInf (negative : bool)
| PyNaN.

(** A dictionary decoded from a JSON object. *)
Abbreviation pydict := (gmap string pyval).

(** [d.get(k)]: [None] when the key is absent. *)
Definition dict_get (d : pydict) (k : string) : pyval :=
  default PyNone (d !! k).

(** [d.get(k, dflt)]. *)
Definition dict_get_default (d : pydict) (k : string) (dflt : pyval) : pyval :=
  default dflt (d !! k).

(** [k in d]. *)
Definition dict_has (d : pydict) (k : string) : bool :=
  match d !! k with Some _ => true | None => false end.

(** The number a [bool], [int] or finite [float] denotes. *)
Definition py_num (v : pyval) : option Q :=
  match v with
  | PyBool b => Some (inject_Z (Z.b2z b))
  | PyInt z => Some (inject_Z z)
  | PyFloat q => Some q
  | PyNone | PyStr _ | PyList _ | PyInf _ | PyNaN => None
  end.

(** Truth value of an object in an [if]. *)
Definition py_truthy (v : pyval) : bool :=
  match v with
  | PyNone => false
  | PyBool b => b
  | PyInt z => negb (z =? 0)
  | PyFloat q => negb (Qeq_bool q 0)
  | PyStr s => negb (String.eqb s "")
  | PyList l => match l with [] => false | _ :: _ => true end
  | PyInf _ | PyNaN => true
  end.

(** [a == b]: numbers by value across [bool], [int] and [float], strings
    and lists by content; an infinity equals itself only, [nan]
    nothing. *)
Fixpoint py_eq (a b : pyval) : bool :=
  match a, b with
  | PyNone, PyNone => true
  | PyStr s, PyStr t => String.eqb s t
  | PyInf m, PyInf n => Bool.eqb m n
  | PyList xs, PyList ys =>
      (fix all_eq (xs ys : list pyval) {struct xs} : bool :=
         match xs, ys with
         | [], [] => true
         | x :: xs', y :: ys' => py_eq x y && all_eq xs' ys'
         | _, _ => false
         end) xs ys
  | _, _ =>
      match py_num a, py_num b with
      | Some p, Some q => Qeq_bool p q
      | _, _ => false
      end
  end.

(** [x in l] for a list [l]. *)
Definition py_in (x : pyval) (l : list pyval) : bool :=
  existsb (py_eq x) l.

(** Rounding towards zero, as [int] does on a [float]. *)
Definition Qtrunc (q : Q) : Z :=
  if Qle_bool 0 q then Qfloor q else Qceiling q.

(** ** Exceptions *)

(** The exceptions of [requests.exceptions] the programs can meet, all of
    them subclasses of [RequestException]; [JSONDecodeError] is one
    since requests 2.27. *)
Inductive requests_error :=
| ConnectionError
| Timeout
| HTTPError
| JSONDecodeError.

Inductive exn :=
| ValueError
| TypeError
| OverflowError
| OSError
| AttributeError
| UnboundLocalError
| RecursionError
| RequestException (r : requests_error).

Inductive res (A : Type) :=
| Ok (a : A)
| Raise (e : exn).
Arguments Ok {A} a.
Arguments Raise {A} e.

#[global] Instance res_ret : MRet res := λ A a, Ok a.
#[global] Instance res_bind : MBind res := λ A B f m,
  match m with Ok a => f a | Raise e => Raise e end.
#[global] Instance res_fmap : FMap res := λ A B f m,
  match m with Ok a => Ok (f a) | Raise e => Raise e end.

(** [except requests.exceptions.RequestException] *)
Definition is_RequestException (e : exn) : bool :=
  match e with RequestException _ => true | _ => false end.

(** [except (ValueError, TypeError)] *)
Definition is_ValueError_or_TypeError (e : exn) : bool :=
  match e with ValueError | TypeError => true | _ => false end.

(** [try: body except <caught>: handler] on a computation without
    requests. *)
Definition try_except {A} (body : res A) (caught : exn → bool)
    (handler : exn → res A) : res A :=
  match body with
  | Ok a => Ok a
  | Raise e => if caught e then handler e else Raise e
  end.

(** ** The builtins whose behaviour on text and time is the platform's *)

Class PyRuntime := {
  (** [int(s)] on a string: [None] stands for [ValueError]. *)
  int_of_str : string → option Z;
  (** whether [float(s)] accepts the string. *)
  float_of_str_ok : string → bool;
  (** the exception [datetime.fromtimestamp(n)] raises, if any. *)
  fromtimestamp_exn : Z → option exn;
}.

Section Builtins.
Context `{rt : PyRuntime}.

(** [int(v)] *)
Definition py_int (v : pyval) : res Z :=
  match v with
  | PyNone => Raise TypeError
  | PyBool b => Ok (Z.b2z b)
  | PyInt z => Ok z
  | PyFloat q => Ok (Qtrunc q)
  | PyStr s => match int_of_str s with Some z => Ok z | None => Raise ValueError end
  | PyList _ => Raise TypeError
  | PyInf _ => Raise OverflowError
  | PyNaN => Raise ValueError
  end.

(** [float(v)]: only whether it raises matters to the monitors, the
    number goes into the message text.  An [int] converts when it
    rounds to a finite double. *)
Definition py_float (v : pyval) : res unit :=
  match v with
  | PyNone => Raise TypeError
  | PyBool _ => Ok ()
  | PyInt z => if Z.abs z <? 2 ^ 1024 - 2 ^ 970 then Ok () else Raise OverflowError
  | PyFloat _ => Ok ()
  | PyStr s => if float_of_str_ok s then Ok () else Raise ValueError
  | PyList _ => Raise TypeError
  | PyInf _ | PyNaN => Ok ()
  end.

(** [datetime.fromtimestamp(n).strftime(...)] *)
Definition fromtimestamp (n : Z) : res unit :=
  match fromtimestamp_exn n with Some e => Raise e | None => Ok () end.
End Builtins.

(** [v > w] for an [int] [w]: [inf] is above every integer, [-inf] and
    [nan] above none. *)
Definition py_gt (v : pyval) (w : Z) : res bool :=
  match v with
  | PyInf negative => Ok (negb negative)
  | PyNaN => Ok false
  | _ =>
      match py_num v with
      | Some q => Ok (negb (Qle_bool q (inject_Z w)))
      | None => Raise TypeError
      end
  end.

(** [v != w] for an [int] [w]: never raises. *)
Definition py_ne (v : pyval) (w : Z) : bool :=
  negb (py_eq v (PyInt w)).

(** ** Decoded JSON documents *)

Inductive json_item :=
| ItemObj (o : pydict)
| ItemVal (v : pyval).

Inductive json_doc :=
| DocArray (items : list json_item)
| DocObject (o : pydict)
| DocScalar (v : pyval).

(** [if doc:] *)
Definition doc_truthy (d : json_doc) : bool :=
  match d with
  | DocArray items => match items with [] => false | _ :: _ => true end
  | DocObject o => match map_to_list o with [] => false | _ :: _ => true end
  | DocScalar v => py_truthy v
  end.

Fixpoint chars (s : string) : list pyval :=
  match s with
  | EmptyString => []
  | String c s' => PyStr (String c EmptyString) :: chars s'
  end.

(** [for x in doc]: a dictionary yields its keys, a string its
    characters. *)
Definition py_iter (d : json_doc) : res (list json_item) :=
  match d with
  | DocArray items => Ok items
  | DocObject o => Ok (map (λ kv, ItemVal (PyStr kv.1)) (map_to_list o))
  | DocScalar (PyStr s) => Ok (map ItemVal (chars s))
  | DocScalar (PyList l) => Ok (map ItemVal l)
  | DocScalar _ => Raise TypeError
  end.

(** [x.get(k)]: only dictionaries have the method. *)
Definition item_get (x : json_item) (k : string) : res pyval :=
  match x with
  | ItemObj o => Ok (dict_get o k)
  | ItemVal _ => Raise AttributeError
  end.

(** ** Requests *)

Record telegram_payload := {
  chat_id : string;
  text : list pydict;
  parse_mode : option string;
}.

Inductive request :=
| Get (url : string) (params : pydict)
| Post (url : string) (payload : telegram_payload).

Inductive transport_failure := ConnectFailed | TimedOut.

(** What the decoder raises on besides text that is not JSON: an integer
    literal of more than 4300 digits ([ValueError]) and nesting beyond
    the recursion limit ([RecursionError]). *)
Inductive load_failure := IntegerTooLong | NestedTooDeep.

Inductive body := NotJSON | Json (d : json_doc) | Unloadable (f : load_failure).

Inductive http_outcome :=
| NoResponse (f : transport_failure)
| Response (status : Z) (b : body).

(** Computations that issue requests: the log of requests issued so far
    is threaded, and kept when an exception is raised. *)
Definition M (A : Type) : Type := list request → res A * list request.

#[global] Instance M_ret : MRet M := λ A a log, (Ok a, log).
#[global] Instance M_bind : MBind M := λ A B f m log,
  match m log with
  | (Ok a, log') => f a log'
  | (Raise e, log') => (Raise e, log')
  end.

Definition lift {A} (r : res A) : M A := λ log, (r, log).

Definition try_except_M {A} (body : M A) (caught : exn → bool)
    (handler : exn → M A) : M A := λ log,
  match body log with
  | (Ok a, log') => (Ok a, log')
  | (Raise e, log') => if caught e then handler e log' else (Raise e, log')
  end.

Definition transport_exn (f : transport_failure) : exn :=
  match f with
  | ConnectFailed => RequestException ConnectionError
  | TimedOut => RequestException Timeout
  end.

(** [response.raise_for_status()] *)
Definition raise_for_status (status : Z) : res unit :=
  if (400 <=? status) && (status <? 600)
  then Raise (RequestException HTTPError) else Ok ().

Definition load_exn (f : load_failure) : exn :=
  match f with
  | IntegerTooLong => ValueError
  | NestedTooDeep => RecursionError
  end.

(** [response.json()]: requests turns the decoder's [JSONDecodeError]
    into its own, and lets the decoder's other exceptions through. *)
Definition response_json (b : body) : res json_doc :=
  match b with
  | NotJSON => Raise (RequestException JSONDecodeError)
  | Json d => Ok d
  | Unloadable f => Raise (load_exn f)
  end.

Section Network.
(** The answer to the [n]-th request of the run. *)
Variable net : nat → request → http_outcome.

(** [requests.get] and [requests.post]: the request is logged, a
    transport failure is raised as a [RequestException]. *)
Definition send_request (rq : request) : M (Z * body) := λ log,
  match net (length log) rq with
  | NoResponse f => (Raise (transport_exn f), log ++ [rq])
  | Response status b => (Ok (status, b), log ++ [rq])
  end.

(** [get_markets_by_tags], the same text in both programs: the body of
    the [try] for one tag. *)
Definition fetch_tag_markets (tag_id : pyval) (limit : Z) : M (list pydict) :=
  '(status, b) ← send_request
     (Get "https://gamma-api.polymarket.com/markets"
        {[ "tag_id" := tag_id; "closed" := PyStr "false"; "limit" := PyInt limit ]});
  _ ← lift (raise_for_status status);
  markets ← lift (response_json b);
  items ← lift (py_iter markets);
  lift (mapM (λ market,
          question ← item_get market "question";
          condition_id ← item_get market "conditionId";
          mret ({[ "question" := question; "condition_id" := condition_id;
                   "tag_id" := tag_id ]} : pydict)) items).

Fixpoint get_markets_loop (tag_ids : list pyval) (limit : Z)
    (all_markets : list pydict) : M (list pydict) :=
  match tag_ids with
  | [] => mret all_markets
  | tag_id :: rest =>
      all_markets' ← try_except_M
        (found ← fetch_tag_markets tag_id limit; mret (all_markets ++ found))
        is_RequestException
        (λ _, mret all_markets);
      get_markets_loop rest limit all_markets'
  end.

Definition get_markets_by_tags (tag_ids : list pyval) (limit : Z) : M (list pydict) :=
  get_markets_loop tag_ids limit [].

(** [send_telegram_message] of [main.py] ([parse_mode] is ["HTML"]) and
    of [get_specific_activity.py] (no [parse_mode]). *)
Definition send_telegram_message (mode : option string)
    (bot_token chat : string) (message : list pydict) : M bool :=
  try_except_M
    ('(status, _) ← send_request
       (Post ("https://api.telegram.org/bot" +:+ bot_token +:+ "/sendMessage")
          {| chat_id := chat; text := message; parse_mode := mode |});
     _ ← lift (raise_for_status status);
     mret true)
    is_RequestException
    (λ _, mret false).
End Network.

(** [if telegram_bot_token and telegram_chat_id]: both given and
    non-empty. *)
Definition telegram_target (telegram_bot_token telegram_chat_id : option string)
    : option (string * string) :=
  match telegram_bot_token, telegram_chat_id with
  | Some t, Some c =>
      if negb (String.eqb t "") && negb (String.eqb c "") then Some (t, c) else None
  | _, _ => None
  end.

(** Reading a local variable that may not have been assigned yet. *)
Definition read_local {A} (x : option A) : res A :=
  match x with Some a => Ok a | None => Raise UnboundLocalError end.

(** ** [main.py]: one monitor task per wallet *)

Module Multi.

Record monitor_state := {
  last_check_timestamp : Z;
  (** assigned for the first time when a new activity is reported *)
  activity_name : option pyval;
}.

Definition activity_request (wallet_address : string) : request :=
  Get "https://data-api.polymarket.com/activity"
    {[ "user" := PyStr wallet_address; "limit" := PyInt 1;
       "sortBy" := PyStr "TIMESTAMP"; "sortDirection" := PyStr "DESC" ]}.

Section Monitor.
Context `{rt : PyRuntime}.
Variable net : nat → request → http_outcome.
Variables telegram_bot_token telegram_chat_id : option string.

Definition get_user_activity (wallet_address : string) : M json_doc :=
  try_except_M
    ('(status, b) ← send_request net (activity_request wallet_address);
     _ ← lift (raise_for_status status);
     lift (response_json b))
    is_RequestException
    (λ _, mret (DocArray [])).

(** The body of the [try] of the filter, lines 213-219: [true] when
    the activity is appended.  The test is [!=]; the assignment of line
    218 is to a local that is not read again. *)
Definition is_new (last_check : Z) (activity_timestamp : pyval) : res bool :=
  ts ← match activity_timestamp with
       | PyStr _ => z ← py_int activity_timestamp; mret (PyInt z)
       | _ => mret activity_timestamp
       end;
  mret (py_ne ts last_check).

(** The filter loop, lines 207-222. *)
Fixpoint new_activities_loop (last_check : Z) (activities : list json_item)
    (new_activities : list pydict) : res (list pydict) :=
  match activities with
  | [] => Ok new_activities
  | ItemVal _ :: _ => Raise AttributeError
  | ItemObj activity :: rest =>
      let activity_timestamp := dict_get activity "timestamp" in
      new_activities' ←
        (if py_truthy activity_timestamp then
           try_except
             (b ← is_new last_check activity_timestamp;
              mret (if b : bool then new_activities ++ [activity] else new_activities))
             is_ValueError_or_TypeError
             (λ _, mret new_activities)
         else mret new_activities);
      new_activities_loop last_check rest new_activities'
  end.

(** What the loop does with one new activity before it notifies,
    lines 231-256: the conversions that can raise, and the latest
    timestamp seen. *)
Definition describe_activity (activity : pydict)
    (latest_activity_timestamp : Z) : res Z :=
  _ ← py_float (dict_get_default activity "size" (PyInt 0));
  _ ← py_float (dict_get_default activity "price" (PyInt 0));
  if dict_has activity "timestamp" then
    activity_timestamp_int ← py_int (dict_get activity "timestamp");
    _ ← fromtimestamp activity_timestamp_int;
    mret (if latest_activity_timestamp <? activity_timestamp_int
          then activity_timestamp_int else latest_activity_timestamp)
  else mret latest_activity_timestamp.

(** The loop over the new activities, lines 230-270: it threads the
    latest timestamp seen and the local [activity_name]. *)
Fixpoint notify_loop (new_activities : list pydict)
    (latest_activity_timestamp : Z) (name : option pyval) : M (Z * option pyval) :=
  match new_activities with
  | [] => mret (latest_activity_timestamp, name)
  | activity :: rest =>
      let name' := Some (dict_get_default activity "name" (PyStr "N/A")) in
      latest' ← lift (describe_activity activity latest_activity_timestamp);
      _ ← match telegram_target telegram_bot_token telegram_chat_id with
          | Some (token, chat) =>
              send_telegram_message net (Some "HTML") token chat [activity]
          | None => mret false
          end;
      notify_loop rest latest' name'
  end.

(** One turn of the [while True] loop, up to the [await]. *)
Definition monitor_iteration (wallet_address : string) (st : monitor_state)
    : M monitor_state :=
  activities ← get_user_activity wallet_address;
  if doc_truthy activities then
    items ← lift (py_iter activities);
    new_activities ← lift (new_activities_loop (last_check_timestamp st) items []);
    match new_activities with
    | _ :: _ =>
        '(latest, name) ← notify_loop new_activities
                            (last_check_timestamp st) (activity_name st);
        _ ← lift (read_local name);
        mret {| last_check_timestamp := latest; activity_name := name |}
    | [] =>
        _ ← lift (read_local (activity_name st));
        mret st
    end
  else
    _ ← lift (read_local (activity_name st));
    mret st.

Definition initial_state : monitor_state :=
  {| last_check_timestamp := 0; activity_name := None |}.

Fixpoint iterate (cycles : nat) (wallet_address : string) (st : monitor_state)
    : M monitor_state :=
  match cycles with
  | O => mret st
  | S n =>
      st' ← monitor_iteration wallet_address st;
      iterate n wallet_address st'
  end.

(** The first [cycles] turns of [monitor_user_trades]. *)
Definition monitor_user_trades (wallet_address : string) (cycles : nat)
    : M monitor_state :=
  iterate cycles wallet_address initial_state.
End Monitor.

(** [get_markets_by_condition_id], lines 12-58: the request carries the
    condition id in its URL, and the first market of a list, or the
    object itself, is described; [None] stands for Python's [None]. *)
Definition condition_request (condition_id : string) : request :=
  Get ("https://gamma-api.polymarket.com/markets" +:+ "?condition_ids=" +:+ condition_id) ∅.

Definition get_markets_by_condition_id (net : nat → request → http_outcome)
    (condition_id : string) : M (option pydict) :=
  try_except_M
    ('(status, b) ← send_request net (condition_request condition_id);
     _ ← lift (raise_for_status status);
     markets ← lift (response_json b);
     lift match markets with
          | DocArray (market :: _) =>
              question ← item_get market "question";
              condition ← item_get market "conditionId";
              market_slug ← item_get market "marketSlug";
              title ← item_get market "title";
              mret (Some ({[ "question" := question; "condition_id" := condition;
                             "market_slug" := market_slug; "title" := title ]} : pydict))
          | DocScalar (PyList (_ :: _)) => Raise AttributeError
          | DocObject market =>
              mret (Some ({[ "question" := dict_get market "question";
                             "condition_id" := dict_get market "conditionId";
                             "market_slug" := dict_get market "marketSlug";
                             "title" := dict_get market "title" ]} : pydict))
          | DocArray [] | DocScalar _ => mret None
          end)
    is_RequestException
    (λ _, mret None).

End Multi.

(** ** [get_specific_activity.py]: one wallet, markets chosen by tag *)

Module Single.

Definition activity_request (wallet_address : string) : request :=
  Get "https://data-api.polymarket.com/activity" {[ "user" := PyStr wallet_address ]}.

Section Monitor.
Context `{rt : PyRuntime}.
Variable net : nat → request → http_outcome.
Variables telegram_bot_token telegram_chat_id : option string.

(** The list comprehension of [get_user_activity], lines 84-87. *)
Fixpoint keep_markets (market_condition_ids : list pyval)
    (activities : list json_item) : res (list json_item) :=
  match activities with
  | [] => Ok []
  | activity :: rest =>
      condition_id ← item_get activity "conditionId";
      kept ← keep_markets market_condition_ids rest;
      mret (if py_in condition_id market_condition_ids
            then activity :: kept else kept)
  end.

Definition get_user_activity (wallet_address : string)
    (market_condition_ids : option (list pyval)) : M json_doc :=
  try_except_M
    ('(status, b) ← send_request net (activity_request wallet_address);
     _ ← lift (raise_for_status status);
     activities ← lift (response_json b);
     match market_condition_ids with
     | Some (id :: ids) =>
         items ← lift (py_iter activities);
         kept ← lift (keep_markets (id :: ids) items);
         mret (DocArray kept)
     | Some [] | None => mret activities
     end)
    is_RequestException
    (λ _, mret (DocArray [])).

(** The body of the [try] of the filter, lines 166-171. *)
Definition is_new (last_check : Z) (activity_timestamp : pyval) : res bool :=
  ts ← match activity_timestamp with
       | PyStr _ => z ← py_int activity_timestamp; mret (PyInt z)
       | _ => mret activity_timestamp
       end;
  py_gt ts last_check.

(** The filter loop, lines 160-174. *)
Fixpoint new_activities_loop (last_check : Z) (activities : list json_item)
    (new_activities : list pydict) : res (list pydict) :=
  match activities with
  | [] => Ok new_activities
  | ItemVal _ :: _ => Raise AttributeError
  | ItemObj activity :: rest =>
      let activity_timestamp := dict_get activity "timestamp" in
      new_activities' ←
        (if py_truthy activity_timestamp then
           try_except
             (b ← is_new last_check activity_timestamp;
              mret (if b : bool then new_activities ++ [activity] else new_activities))
             is_ValueError_or_TypeError
             (λ _, mret new_activities)
         else mret new_activities);
      new_activities_loop last_check rest new_activities'
  end.

(** What the loop does with one new activity, lines 186-217: the
    conversions that can raise while the one message of the cycle is
    built. *)
Definition describe_activity (activity : pydict) : res unit :=
  _ ← py_float (dict_get_default activity "size" (PyInt 0));
  _ ← py_float (dict_get_default activity "price" (PyInt 0));
  if dict_has activity "timestamp" then
    n ← py_int (dict_get activity "timestamp");
    fromtimestamp n
  else mret ().

Fixpoint describe_loop (new_activities : list pydict) : res unit :=
  match new_activities with
  | [] => Ok ()
  | activity :: rest =>
      _ ← describe_activity activity;
      describe_loop rest
  end.

(** One turn of the [while True] loop; [current_timestamp] is the
    reading of the clock at its start. *)
Definition monitor_iteration (wallet_address : string)
    (market_condition_ids : list pyval) (current_timestamp : Z)
    (last_check_timestamp : Z) : M Z :=
  activities ← get_user_activity wallet_address (Some market_condition_ids);
  _ ← (if doc_truthy activities then
         items ← lift (py_iter activities);
         new_activities ← lift (new_activities_loop last_check_timestamp items []);
         match new_activities with
         | _ :: _ =>
             _ ← lift (describe_loop new_activities);
             match telegram_target telegram_bot_token telegram_chat_id with
             | Some (token, chat) =>
                 _ ← send_telegram_message net None token chat new_activities;
                 mret ()
             | None => mret ()
             end
         | [] => mret ()
         end
       else mret ());
  mret current_timestamp.

Fixpoint iterate (wallet_address : string) (market_condition_ids : list pyval)
    (clock : list Z) (last_check_timestamp : Z) : M Z :=
  match clock with
  | [] => mret last_check_timestamp
  | current_timestamp :: later =>
      last' ← monitor_iteration wallet_address market_condition_ids
                current_timestamp last_check_timestamp;
      iterate wallet_address market_condition_ids later last'
  end.

(** [monitor_user_trades]: [started] is the clock when the monitor
    starts, [clock] its readings at the start of each turn. *)
Definition monitor_user_trades (wallet_address : string)
    (market_condition_ids : list pyval) (started : Z) (clock : list Z) : M Z :=
  iterate wallet_address market_condition_ids clock started.
End Monitor.

(** How [main] can end: with the [KeyError] of a subscript on a market
    entry, or as its monitor does. *)
Inductive main_outcome :=
| KeyErrorRaised
| Ran (r : res Z).

(** The comprehension of line 250: [market['condition_id']] of the
    markets where it is truthy; [None] stands for [KeyError]. *)
Fixpoint condition_ids (markets : list pydict) : option (list pyval) :=
  match markets with
  | [] => Some []
  | market :: rest =>
      condition_id ← market !! "condition_id";
      ids ← condition_ids rest;
      Some (if py_truthy condition_id then condition_id :: ids else ids)
  end.

(** The listing of lines 258-259: [market['question']] of every market. *)
Definition questions (markets : list pydict) : option (list pyval) :=
  mapM (λ market : pydict, market !! "question") markets.

(** [main], lines 234-271; the monitor runs as long as [clock] has
    readings. *)
Definition main `{rt : PyRuntime} (net : nat → request → http_outcome)
    (started : Z) (clock : list Z) (log : list request) : main_outcome * list request :=
  match get_markets_by_tags net [PyStr "82"; PyStr "306"] 1000 log with
  | (Raise e, log') => (Ran (Raise e), log')
  | (Ok markets, log') =>
      match condition_ids markets, questions markets with
      | Some market_condition_ids, Some _ =>
          let '(r, log'') :=
            monitor_user_trades net
              (Some "8479150225:AAFp17cedT3sL8EO-5Ns8y2WyO4pU9XlHJE") (Some "-5280096124")
              "0x37e4728b3c4607fb2b3b205386bb1d1fb1a8c991" market_condition_ids
              started clock log' in
          (Ran r, log'')
      | _, _ => (KeyErrorRaised, log')
      end
  end.

End Single.

(** ** A runtime: CPython on ASCII text, UTC and a 64-bit [time_t] *)

Module Posix.

Definition code (c : ascii) : Z := Z.of_nat (nat_of_ascii c).

Definition is_space (c : ascii) : bool :=
  let n := code c in
  ((9 <=? n) && (n <=? 13)) || (n =? 32).

Definition is_digit (c : ascii) : bool :=
  let n := code c in (48 <=? n) && (n <=? 57).

Definition is_char (n : Z) (c : ascii) : bool := code c =? n.

Fixpoint lstrip (cs : list ascii) : list ascii :=
  match cs with
  | c :: rest => if is_space c then lstrip rest else cs
  | [] => []
  end.

Definition strip (cs : list ascii) : list ascii :=
  rev (lstrip (rev (lstrip cs))).

Definition unsigned (cs : list ascii) : bool * list ascii :=
  match cs with
  | c :: rest =>
      if is_char 45 c then (true, rest)
      else if is_char 43 c then (false, rest)
      else (false, cs)
  | [] => (false, [])
  end.

(** Decimal digits, single underscores between digits only. *)
Fixpoint digits_value (cs : list ascii) (acc : Z) (after_digit : bool) : option Z :=
  match cs with
  | [] => if after_digit then Some acc else None
  | c :: rest =>
      if is_digit c then digits_value rest (10 * acc + (code c - 48)) true
      else if is_char 95 c && after_digit then digits_value rest acc false
      else None
  end.

(** [int(s)]; more than 4300 digits are refused. *)
Definition int_of_str (s : string) : option Z :=
  let '(negative, cs) := unsigned (strip (list_ascii_of_string s)) in
  if (4300 <? length (List.filter is_digit cs))%nat then None
  else
    n ← digits_value cs 0 false;
    Some (if negative then - n else n).

(** What follows a run of digits that has begun. *)
Fixpoint after_digits (cs : list ascii) : list ascii :=
  match cs with
  | c :: rest =>
      if is_digit c then after_digits rest
      else if is_char 95 c then
        match rest with
        | d :: rest' => if is_digit d then after_digits rest' else cs
        | [] => cs
        end
      else cs
  | [] => []
  end.

Definition digitpart (cs : list ascii) : option (list ascii) :=
  match cs with
  | c :: rest => if is_digit c then Some (after_digits rest) else None
  | [] => None
  end.

Definition exponent_ok (cs : list ascii) : bool :=
  match cs with
  | [] => true
  | e :: rest =>
      (is_char 101 e || is_char 69 e) &&
      match digitpart (unsigned rest).2 with
      | Some [] => true
      | _ => false
      end
  end.

Definition lower (c : ascii) : ascii :=
  let n := code c in
  if (65 <=? n) && (n <=? 90) then ascii_of_nat (Z.to_nat (n + 32)) else c.

Definition is_word (w : string) (cs : list ascii) : bool :=
  String.eqb (string_of_list_ascii (map lower cs)) w.

(** Whether [float(s)] accepts the text. *)
Definition float_of_str_ok (s : string) : bool :=
  let cs := (unsigned (strip (list_ascii_of_string s))).2 in
  if is_word "inf" cs || is_word "infinity" cs || is_word "nan" cs then true
  else
    match digitpart cs with
    | Some rest =>
        match rest with
        | c :: fraction =>
            if is_char 46 c then
              exponent_ok (default fraction (digitpart fraction))
            else exponent_ok rest
        | [] => true
        end
    | None =>
        match cs with
        | c :: fraction =>
            is_char 46 c &&
            match digitpart fraction with
            | Some rest => exponent_ok rest
            | None => false
            end
        | [] => false
        end
    end.

(** [datetime.fromtimestamp]: [OverflowError] outside [time_t],
    [OSError] where [localtime] has no year to give, [ValueError] outside
    the years 1 to 9999; the lower end is a day into year 1, as the day
    before the timestamp is looked at too. *)
Definition fromtimestamp_exn (n : Z) : option exn :=
  if (n <? - 2 ^ 63) || (2 ^ 63 <=? n) then Some OverflowError
  else if (n <? -67768040609740800) || (67767976233532799 <? n) then Some OSError
  else if (n <? -62135510400) || (253402300799 <? n) then Some ValueError
  else None.

End Posix.

Definition posix_runtime : PyRuntime :=
  Build_PyRuntime Posix.int_of_str Posix.float_of_str_ok Posix.fromtimestamp_exn.

(** ** Networks and records used in the examples *)

(** Every [GET] is answered with the document, every [POST] accepted. *)
Definition serving (d : json_doc) : nat → request → http_outcome :=
  λ _ rq,
    match rq with
    | Get _ _ => Response 200 (Json d)
    | Post _ _ => Response 200 (Json (DocObject ∅))
    end.

(** As [serving], but the [k]-th request of the run, when it is a
    message, times out. *)
Definition relay_fails_at (k : nat) (d : json_doc) : nat → request → http_outcome :=
  λ n rq,
    match rq with
    | Get _ _ => Response 200 (Json d)
    | Post _ _ =>
        if Nat.eqb n k then NoResponse TimedOut else Response 200 (Json (DocObject ∅))
    end.

(** As [serving], but the [k]-th request of the run is answered with an
    error page. *)
Definition fails_at (k : nat) (d : json_doc) : nat → request → http_outcome :=
  λ n rq, if Nat.eqb n k then Response 500 NotJSON else serving d n rq.

(** The first request of the run is answered with the first document,
    every later [GET] with the second, every [POST] accepted. *)
Definition serving_in_turn (first later : json_doc) : nat → request → http_outcome :=
  λ n rq,
    match rq with
    | Get _ _ => Response 200 (Json (if Nat.eqb n 0 then first else later))
    | Post _ _ => Response 200 (Json (DocObject ∅))
    end.

(** No request gets through. *)
Definition unreachable : nat → request → http_outcome :=
  λ _ _, NoResponse ConnectFailed.

(** A record with a timestamp and nothing else. *)
Definition stamped (ts : pyval) : pydict := {[ "timestamp" := ts ]}.

Definition records (l : list pydict) : json_doc := DocArray (map ItemObj l).

(** ** Derived definitions: what the loops compute, without the plumbing *)

Section Derived.
Context `{rt : PyRuntime}.

Definition timestamp_of (a : pydict) : pyval := dict_get a "timestamp".

(** A timestamp is coercible when [int] accepts it. *)
Definition coercible (v : pyval) : bool :=
  match py_int v with Ok _ => true | Raise _ => false end.

(** The number a timestamp stands for: a string for the integer it
    spells. *)
Definition timestamp_value (v : pyval) : option Q :=
  match v with
  | PyStr s => inject_Z <$> int_of_str s
  | _ => py_num v
  end.

(** Strictly greater than the watermark. *)
Definition exceeds (v : pyval) (W : Z) : bool :=
  match timestamp_value v with
  | Some q => negb (Qle_bool q (inject_Z W))
  | None => false
  end.

(** New in the words of the specification: the timestamp is coercible
    to an integer and strictly greater than the watermark. *)
Definition claimed_new (W : Z) (a : pydict) : bool :=
  coercible (timestamp_of a) && exceeds (timestamp_of a) W.

(** What one turn of each filter loop appends. *)
Definition single_appends (W : Z) (a : pydict) : bool :=
  py_truthy (timestamp_of a) &&
  match Single.is_new W (timestamp_of a) with Ok b => b | Raise _ => false end.

Definition multi_appends (W : Z) (a : pydict) : bool :=
  py_truthy (timestamp_of a) &&
  match Multi.is_new W (timestamp_of a) with Ok b => b | Raise _ => false end.

(** The status is one [raise_for_status] raises on. *)
Definition error_status (status : Z) : bool :=
  (400 <=? status) && (status <? 600).

(** A poll fails when there is no response, the response carries an
    error status, or its body is not JSON. *)
Definition failed (o : http_outcome) : bool :=
  match o with
  | NoResponse _ => true
  | Response status b =>
      error_status status || match b with NotJSON => true | _ => false end
  end.

(** The bot's message got through. *)
Definition delivered (o : http_outcome) : bool :=
  match o with
  | NoResponse _ => false
  | Response status _ => negb (error_status status)
  end.

Definition telegram_post (mode : option string) (bot_token chat : string)
    (message : list pydict) : request :=
  Post ("https://api.telegram.org/bot" +:+ bot_token +:+ "/sendMessage")
    {| chat_id := chat; text := message; parse_mode := mode |}.

(** The document a poll of [main.py] hands to the loop, the empty list
    when it hands none. *)
Definition multi_fetched (o : http_outcome) : json_doc :=
  match o with
  | Response status (Json d) => if error_status status then DocArray [] else d
  | _ => DocArray []
  end.

(** The exception that escapes a fetch because the decoder raised it on
    the body of a response of good status. *)
Definition escaping (o : http_outcome) : option exn :=
  match o with
  | Response status (Unloadable f) =>
      if error_status status then None else Some (load_exn f)
  | _ => None
  end.

(** The result of a poll of [main.py]: the decoder runs inside the [try]
    and can raise past it. *)
Definition multi_polled (o : http_outcome) : res json_doc :=
  match escaping o with
  | Some e => Raise e
  | None => Ok (multi_fetched o)
  end.

(** The result of a poll of [get_specific_activity.py]: the decoder and
    the market filter run inside the [try] and can raise past it. *)
Definition single_fetched (market_condition_ids : option (list pyval))
    (o : http_outcome) : res json_doc :=
  match o with
  | Response status (Json d) =>
      if error_status status then Ok (DocArray [])
      else
        match market_condition_ids with
        | Some (id :: ids) =>
            items ← py_iter d;
            kept ← Single.keep_markets (id :: ids) items;
            Ok (DocArray kept)
        | _ => Ok d
        end
  | Response status (Unloadable f) =>
      if error_status status then Ok (DocArray []) else Raise (load_exn f)
  | _ => Ok (DocArray [])
  end.

(** The requests that deliver the given messages, if the bot is set up. *)
Definition posts_of (mode : option string) (target : option (string * string))
    (messages : list (list pydict)) : list request :=
  match target with
  | Some (token, chat) => map (telegram_post mode token chat) messages
  | None => []
  end.

Definition name_of (a : pydict) : pyval := dict_get_default a "name" (PyStr "N/A").

(** The result of the loop over the new activities. *)
Fixpoint multi_notify_result (new : list pydict) (latest : Z) (name : option pyval)
    : res (Z * option pyval) :=
  match new with
  | [] => Ok (latest, name)
  | a :: rest =>
      latest' ← Multi.describe_activity a latest;
      multi_notify_result rest latest' (Some (name_of a))
  end.

(** The new activities the loop reaches the notification of: all of
    them unless a conversion raises on the way. *)
Fixpoint attempted (new : list pydict) (latest : Z) : list pydict :=
  match new with
  | [] => []
  | a :: rest =>
      match Multi.describe_activity a latest with
      | Ok latest' => a :: attempted rest latest'
      | Raise _ => []
      end
  end.

(** The records one turn of [main.py] classifies as new. *)
Definition multi_detect (W : Z) (doc : json_doc) : res (list pydict) :=
  if doc_truthy doc then
    items ← py_iter doc;
    Multi.new_activities_loop W items []
  else Ok [].

Definition multi_iteration_result (st : Multi.monitor_state) (doc : json_doc)
    : res Multi.monitor_state :=
  new ← multi_detect (Multi.last_check_timestamp st) doc;
  match new with
  | [] => _ ← read_local (Multi.activity_name st); Ok st
  | _ :: _ =>
      '(latest, name) ← multi_notify_result new (Multi.last_check_timestamp st)
                          (Multi.activity_name st);
      _ ← read_local name;
      Ok {| Multi.last_check_timestamp := latest; Multi.activity_name := name |}
  end.

Definition multi_attempted (W : Z) (doc : json_doc) : list pydict :=
  match multi_detect W doc with
  | Ok new => attempted new W
  | Raise _ => []
  end.

(** The result of a turn of [main.py], given the answer to its poll. *)
Definition multi_turn_result (st : Multi.monitor_state) (o : http_outcome)
    : res Multi.monitor_state :=
  doc ← multi_polled o;
  multi_iteration_result st doc.

(** The records one turn of [get_specific_activity.py] classifies as
    new. *)
Definition single_detect (W : Z) (doc : json_doc) : res (list pydict) :=
  if doc_truthy doc then
    items ← py_iter doc;
    Single.new_activities_loop W items []
  else Ok [].

Definition single_iteration_result (ids : list pyval) (now W : Z) (o : http_outcome)
    : res Z :=
  doc ← single_fetched (Some ids) o;
  new ← single_detect W doc;
  _ ← Single.describe_loop new;
  Ok now.

Definition nonempty {A} (l : list A) : bool :=
  match l with [] => false | _ :: _ => true end.

Definition succeeds {A} (r : res A) : bool :=
  match r with Ok _ => true | Raise _ => false end.

(** The one message of the turn, if it gets as far as sending it. *)
Definition single_messages (ids : list pyval) (W : Z) (o : http_outcome)
    : list (list pydict) :=
  match single_fetched (Some ids) o ≫= single_detect W with
  | Ok new =>
      if nonempty new && succeeds (Single.describe_loop new) then [new] else []
  | Raise _ => []
  end.

(** The watermark [main.py] ends a turn with: the greatest of the old
    one and the integer timestamps of the new records. *)
Definition max_timestamp (new : list pydict) (W : Z) : Z :=
  foldl (λ latest a,
           match py_int (timestamp_of a) with
           | Ok t => Z.max latest t
           | Raise _ => latest
           end) W new.

(** The records the messages of a log report. *)
Definition reported (log : list request) : list pydict :=
  concat (map (λ rq, match rq with Post _ p => text p | Get _ _ => [] end) log).

(** The request [get_markets_by_tags] issues for a tag. *)
Definition tag_request (tag_id : pyval) (limit : Z) : request :=
  Get "https://gamma-api.polymarket.com/markets"
    {[ "tag_id" := tag_id; "closed" := PyStr "false"; "limit" := PyInt limit ]}.

(** The entry appended for a market of a tag. *)
Definition market_entry (tag_id : pyval) (market : pydict) : pydict :=
  {[ "question" := dict_get market "question";
     "condition_id" := dict_get market "conditionId";
     "tag_id" := tag_id ]}.

(** The markets a tag contributes, given the answer to its request:
    none when the request fails. *)
Definition markets_of (tag_id : pyval) (o : http_outcome) : list pydict :=
  match o with
  | Response status (Json (DocArray items)) =>
      if error_status status then []
      else omap (λ x, match x with
                      | ItemObj market => Some (market_entry tag_id market)
                      | ItemVal _ => None
                      end) items
  | _ => []
  end.

(** The contributions of the tags in turn, the first request being the
    [n]-th of the run. *)
Fixpoint contributions (net : nat → request → http_outcome) (tag_ids : list pyval)
    (limit : Z) (n : nat) : list pydict :=
  match tag_ids with
  | [] => []
  | tag_id :: rest =>
      markets_of tag_id (net n (tag_request tag_id limit))
      ++ contributions net rest limit (S n)
  end.

(** Every tag's request either fails or is answered with an array of
    market objects. *)
Fixpoint well_answered (net : nat → request → http_outcome) (tag_ids : list pyval)
    (limit : Z) (n : nat) : Prop :=
  match tag_ids with
  | [] => True
  | tag_id :: rest =>
      (failed (net n (tag_request tag_id limit)) = true
       ∨ ∃ status R, net n (tag_request tag_id limit) = Response status (Json (records R))
                     ∧ error_status status = false)
      ∧ well_answered net rest limit (S n)
  end.

(** Two networks that differ, if at all, in what the relay answers. *)
Definition same_feeds (net net' : nat → request → http_outcome) : Prop :=
  ∀ n url params, net' n (Get url params) = net n (Get url params).

(** The descriptor [get_markets_by_condition_id] builds for a market. *)
Definition market_info (market : pydict) : pydict :=
  {[ "question" := dict_get market "question";
     "condition_id" := dict_get market "conditionId";
     "market_slug" := dict_get market "marketSlug";
     "title" := dict_get market "title" ]}.

(** The records the answer to a request carries: the items of its
    array. *)
Definition returned_records (o : http_outcome) : nat :=
  match o with
  | Response _ (Json (DocArray items)) => length items
  | _ => 0%nat
  end.

(** The requests of a log that are polls or listings, not messages. *)
Definition is_get (rq : request) : bool :=
  match rq with Get _ _ => true | Post _ _ => false end.

End Derived.

(** ** Statements of the specification, as it words them *)

(** The new records are exactly the records whose timestamp is coercible
    and strictly greater than the watermark, in feed order. *)
Definition new_records_as_specified `{rt : PyRuntime}
    (loop : Z → list json_item → list pydict → res (list pydict))
    (W : Z) (R : list pydict) : Prop :=
  loop W (map ItemObj R) [] = Ok (List.filter (claimed_new W) R).

(** The next watermark does not regress, and is the old one when no
    record is new. *)
Definition watermark_as_specified (W W' : Z) (new : list pydict) : Prop :=
  W ≤ W' ∧ (new = [] → W' = W).

(** A turn logs its poll and then at most one message. *)
Definition at_most_one_message (wallet : string) (log log' : list request) : Prop :=
  ∃ sent, log' = log ++ Multi.activity_request wallet :: sent ∧ (length sent ≤ 1)%nat.

(** The feed of the scenario: timestamps 90, 150 and 100 in that order. *)
Definition scenario_feed : list pydict :=
  [stamped (PyInt 90); stamped (PyInt 150); stamped (PyInt 100)].

(** * Properties *)

(** ** What the claims call a new record *)

Section Classification.
Context `{rt : PyRuntime}.

Lemma single_is_new_raises W v e :
  Single.is_new W v = Raise e → is_ValueError_or_TypeError e = true.
Proof.
  unfold Single.is_new, py_gt.
  destruct v as [| b | z | q | s | l | n |]; cbn; try discriminate;
    try (intros [= <-]; reflexivity).
  destruct (int_of_str s); cbn; [discriminate |].
  intros [= <-]; reflexivity.
Qed.

Lemma multi_is_new_raises W v e :
  Multi.is_new W v = Raise e → is_ValueError_or_TypeError e = true.
Proof.
  unfold Multi.is_new.
  destruct v as [| b | z | q | s | l | n |]; cbn; try discriminate.
  destruct (int_of_str s); cbn; [discriminate |].
  intros [= <-]; reflexivity.
Qed.

(** The single-wallet filter loop is a filter: nothing in it escapes
    the [try]. *)
Lemma single_loop_filter W (R acc : list pydict) :
  Single.new_activities_loop W (map ItemObj R) acc
  = Ok (acc ++ List.filter (single_appends W) R).
Proof.
  revert acc; induction R as [| a R IH]; intros acc; cbn [map List.filter].
  - cbn. by rewrite app_nil_r.
  - cbn [Single.new_activities_loop]. unfold single_appends at 1, timestamp_of.
    destruct (py_truthy (dict_get a "timestamp")); cbn [andb].
    + destruct (Single.is_new W (dict_get a "timestamp")) as [[] | e] eqn:E; cbn.
      * rewrite IH. by rewrite <- app_assoc.
      * apply IH.
      * rewrite (single_is_new_raises _ _ _ E). cbn. apply IH.
    + cbn. apply IH.
Qed.


(** With [>] the loop keeps what the claim calls new, among the
    records whose timestamp is truthy, unless the timestamp is [inf]:
    that one is above every watermark, and [int] refuses it. *)
Lemma single_appends_claimed W a :
  timestamp_of a ≠ PyInf false →
  single_appends W a = py_truthy (timestamp_of a) && claimed_new W a.
Proof.
  unfold single_appends, claimed_new, coercible, exceeds, Single.is_new, py_gt.
  destruct (timestamp_of a) as [| b | z | q | s | l | n |]; cbn; try reflexivity.
  - destruct (int_of_str s); reflexivity.
  - by destruct n.
Qed.


Lemma Qgt_bool_neq (p q : Q) :
  negb (Qle_bool p q) = true → negb (Qeq_bool p q) = true.
Proof.
  rewrite !negb_true_iff. intros Hle.
  destruct (Qeq_bool p q) eqn:E; [| reflexivity].
  apply Qeq_bool_iff in E.
  assert (Qle_bool p q = true) as H; [| congruence].
  apply Qle_bool_iff. rewrite E. apply Qle_refl.
Qed.

(** With [!=] the loop keeps at least what the claim calls new, among
    the records whose timestamp is truthy. *)
Lemma multi_appends_claimed W a :
  py_truthy (timestamp_of a) && claimed_new W a = true → multi_appends W a = true.
Proof.
  unfold multi_appends, claimed_new, coercible, exceeds, Multi.is_new, py_ne.
  rewrite !andb_true_iff. intros (Ht & Hc & Hx). split; [exact Ht |].
  destruct (timestamp_of a) as [| b | z | q | s | l | n |]; cbn in *;
    try discriminate; try (by apply Qgt_bool_neq).
  destruct (int_of_str s); cbn in *; [by apply Qgt_bool_neq | discriminate].
Qed.

Lemma multi_appends_truthy W a :
  multi_appends W a = true → py_truthy (timestamp_of a) = true.
Proof. unfold multi_appends. by intros [? _]%andb_true_iff. Qed.

Lemma single_appends_truthy W a :
  single_appends W a = true → py_truthy (timestamp_of a) = true.
Proof. unfold single_appends. by intros [? _]%andb_true_iff. Qed.
End Classification.

(** ** What the computations with requests amount to *)

Lemma M_bind_run {A B} (m : M A) (f : A → M B) (log : list request) :
  (m ≫= f) log
  = match m log with
    | (Ok a, log') => f a log'
    | (Raise e, log') => (Raise e, log')
    end.
Proof. reflexivity. Qed.

Lemma lift_run {A} (r : res A) (log : list request) : lift r log = (r, log).
Proof. reflexivity. Qed.

Lemma M_ret_run {A} (a : A) (log : list request) : (mret a : M A) log = (Ok a, log).
Proof. reflexivity. Qed.

Section Runs.
Context `{rt : PyRuntime}.
Variable net : nat → request → http_outcome.

Lemma send_telegram_message_run mode bot_token chat message log :
  send_telegram_message net mode bot_token chat message log
  = (Ok (delivered (net (length log) (telegram_post mode bot_token chat message))),
     log ++ [telegram_post mode bot_token chat message]).
Proof.
  unfold send_telegram_message, try_except_M, telegram_post.
  rewrite M_bind_run. unfold send_request.
  destruct (net _ _) as [[] | status b]; cbn; try reflexivity.
  unfold raise_for_status, error_status.
  destruct ((400 <=? status) && (status <? 600)); reflexivity.
Qed.

Lemma load_exn_escapes f : is_RequestException (load_exn f) = false.
Proof. by destruct f. Qed.

Lemma multi_get_user_activity_run wallet log :
  Multi.get_user_activity net wallet log
  = (multi_polled (net (length log) (Multi.activity_request wallet)),
     log ++ [Multi.activity_request wallet]).
Proof.
  unfold Multi.get_user_activity, try_except_M.
  rewrite M_bind_run. unfold send_request, multi_polled, escaping, multi_fetched.
  destruct (net _ _) as [[] | status b]; cbn; try reflexivity.
  unfold raise_for_status, error_status.
  destruct ((400 <=? status) && (status <? 600)); cbn; [by destruct b |].
  destruct b as [| d | f]; cbn; try reflexivity.
  by destruct f.
Qed.

Lemma keep_markets_raises ids items e :
  Single.keep_markets ids items = Raise e → is_RequestException e = false.
Proof.
  revert e; induction items as [| x items IH]; intros e; cbn; [discriminate |].
  destruct x as [o | v]; cbn; [| by intros [= <-]].
  destruct (Single.keep_markets ids items) as [kept | e'] eqn:E; cbn.
  - discriminate.
  - intros [= <-]. by apply IH.
Qed.

Lemma py_iter_raises d e : py_iter d = Raise e → is_RequestException e = false.
Proof.
  destruct d as [items | o | v]; cbn; try discriminate.
  destruct v; try discriminate; by intros [= <-].
Qed.

Lemma single_get_user_activity_run wallet ids log :
  Single.get_user_activity net wallet ids log
  = (single_fetched ids (net (length log) (Single.activity_request wallet)),
     log ++ [Single.activity_request wallet]).
Proof.
  unfold Single.get_user_activity, try_except_M.
  rewrite M_bind_run. unfold send_request, single_fetched.
  destruct (net _ _) as [[] | status b]; cbn; try reflexivity.
  unfold raise_for_status, error_status.
  destruct ((400 <=? status) && (status <? 600)); cbn; [by destruct b |].
  destruct b as [| d | f]; cbn; [reflexivity | | by destruct f].
  destruct ids as [[| id ids] |]; try reflexivity.
  cbv [mbind M_bind lift mret M_ret].
  destruct (py_iter d) as [items | e] eqn:Ei; cbn.
  - destruct (Single.keep_markets (id :: ids) items) as [kept | e] eqn:Ek; cbn.
    + reflexivity.
    + by rewrite (keep_markets_raises _ _ _ Ek).
  - by rewrite (py_iter_raises _ _ Ei).
Qed.
End Runs.

Section MultiRuns.
Context `{rt : PyRuntime}.
Variable net : nat → request → http_outcome.
Variables telegram_bot_token telegram_chat_id : option string.

Lemma escaping_fetched o e : escaping o = Some e → multi_fetched o = DocArray [].
Proof.
  unfold escaping, multi_fetched.
  destruct o as [| status [| d | f]]; try discriminate. reflexivity.
Qed.

Lemma multi_turn_result_ok st o st' :
  multi_turn_result st o = Ok st' →
  escaping o = None ∧ multi_iteration_result st (multi_fetched o) = Ok st'.
Proof.
  unfold multi_turn_result, multi_polled.
  destruct (escaping o); cbn; [discriminate | done].
Qed.

Lemma multi_turn_result_loaded st o :
  escaping o = None → multi_turn_result st o = multi_iteration_result st (multi_fetched o).
Proof. unfold multi_turn_result, multi_polled. by intros ->. Qed.

Lemma failed_loaded o : failed o = true → escaping o = None.
Proof.
  unfold failed, escaping. destruct o as [| status [| d | f]]; try reflexivity.
  rewrite orb_false_r. by intros ->.
Qed.

Lemma failed_fetched o : failed o = true → multi_fetched o = DocArray [].
Proof.
  unfold failed, multi_fetched. destruct o as [| status [| d | f]]; try reflexivity.
  rewrite orb_false_r. by intros ->.
Qed.

Lemma multi_notify_loop_run new latest name log :
  Multi.notify_loop net telegram_bot_token telegram_chat_id new latest name log
  = (multi_notify_result new latest name,
     log ++ posts_of (Some "HTML") (telegram_target telegram_bot_token telegram_chat_id)
              (map (λ a, [a]) (attempted new latest))).
Proof.
  revert latest name log; induction new as [| a new IH]; intros latest name log.
  - cbn. destruct (telegram_target _ _) as [[] |]; cbn; by rewrite app_nil_r.
  - cbn [Multi.notify_loop multi_notify_result attempted].
    rewrite M_bind_run, lift_run.
    destruct (Multi.describe_activity a latest) as [latest' | e]; cbn.
    + rewrite M_bind_run.
      destruct (telegram_target _ _) as [[token chat] |] eqn:Et.
      * rewrite send_telegram_message_run, IH. cbn.
        by rewrite <- app_assoc.
      * rewrite M_ret_run, IH. reflexivity.
    + destruct (telegram_target _ _) as [[] |]; cbn; by rewrite app_nil_r.
Qed.

(** One turn of [main.py]: its result is a function of the answer to
    its poll alone, and it logs the poll and then one message for each
    new activity it reaches. *)
Lemma multi_monitor_iteration_run wallet st log :
  let o := net (length log) (Multi.activity_request wallet) in
  Multi.monitor_iteration net telegram_bot_token telegram_chat_id wallet st log
  = (multi_turn_result st o,
     log ++ Multi.activity_request wallet
         :: posts_of (Some "HTML") (telegram_target telegram_bot_token telegram_chat_id)
              (map (λ a, [a])
                 (multi_attempted (Multi.last_check_timestamp st) (multi_fetched o)))).
Proof.
  intros o. unfold Multi.monitor_iteration.
  rewrite M_bind_run, multi_get_user_activity_run. fold o.
  assert (∀ l : list request,
            l ++ posts_of (Some "HTML") (telegram_target telegram_bot_token telegram_chat_id) []
            = l) as Hnil.
  { intros l. destruct (telegram_target _ _) as [[] |]; cbn; by rewrite app_nil_r. }
  match goal with
  | |- _ = (_, ?l ++ ?r :: ?P) =>
      replace (l ++ r :: P) with ((l ++ [r]) ++ P) by (by rewrite <- app_assoc)
  end.
  unfold multi_turn_result, multi_polled.
  destruct (escaping o) as [e |] eqn:Eo.
  { rewrite (escaping_fetched _ _ Eo). cbn. by rewrite Hnil. }
  cbn [mbind res_bind]. generalize (multi_fetched o) as doc. intros doc.
  unfold multi_iteration_result, multi_attempted, multi_detect.
  destruct (doc_truthy doc).
  - rewrite M_bind_run, lift_run.
    destruct (py_iter doc) as [items | e]; cbn; [| by rewrite Hnil].
    rewrite M_bind_run, lift_run.
    destruct (Multi.new_activities_loop _ items []) as [new | e]; cbn;
      [| by rewrite Hnil].
    destruct new as [| a new].
    + rewrite M_bind_run, lift_run. cbn. rewrite Hnil.
      destruct (Multi.activity_name st); reflexivity.
    + rewrite M_bind_run, multi_notify_loop_run.
      destruct (multi_notify_result (a :: new) _ _) as [[latest name] | e];
        [| reflexivity].
      rewrite M_bind_run, lift_run.
      destruct name; reflexivity.
  - cbn. rewrite M_bind_run, lift_run, Hnil.
    destruct (Multi.activity_name st); reflexivity.
Qed.

(** A turn that completes: the decoder raised nothing, and the turn is
    what the fetched document makes it. *)
Lemma multi_turn_ok wallet st log st' log' :
  let o := net (length log) (Multi.activity_request wallet) in
  Multi.monitor_iteration net telegram_bot_token telegram_chat_id wallet st log
  = (Ok st', log') →
  escaping o = None
  ∧ multi_iteration_result st (multi_fetched o) = Ok st'
  ∧ log' = log ++ Multi.activity_request wallet
               :: posts_of (Some "HTML")
                    (telegram_target telegram_bot_token telegram_chat_id)
                    (map (λ a, [a])
                       (multi_attempted (Multi.last_check_timestamp st) (multi_fetched o))).
Proof.
  intros o. rewrite multi_monitor_iteration_run. fold o.
  intros H. injection H as Hres Hlog.
  apply multi_turn_result_ok in Hres as [Hesc Hres]. done.
Qed.
End MultiRuns.

Section SingleRuns.
Context `{rt : PyRuntime}.
Variable net : nat → request → http_outcome.
Variables telegram_bot_token telegram_chat_id : option string.

Lemma single_monitor_iteration_run wallet ids now W log :
  let o := net (length log) (Single.activity_request wallet) in
  Single.monitor_iteration net telegram_bot_token telegram_chat_id wallet ids now W log
  = (single_iteration_result ids now W o,
     log ++ Single.activity_request wallet
         :: posts_of None (telegram_target telegram_bot_token telegram_chat_id)
              (single_messages ids W o)).
Proof.
  intros o. unfold Single.monitor_iteration.
  rewrite M_bind_run, single_get_user_activity_run. fold o.
  unfold single_iteration_result, single_messages, single_detect.
  assert (∀ l : list request,
            l ++ posts_of None (telegram_target telegram_bot_token telegram_chat_id) []
            = l) as Hnil.
  { intros l. destruct (telegram_target _ _) as [[] |]; cbn; by rewrite app_nil_r. }
  match goal with
  | |- _ = (_, ?l ++ ?r :: ?P) =>
      replace (l ++ r :: P) with ((l ++ [r]) ++ P) by (by rewrite <- app_assoc)
  end.
  destruct (single_fetched (Some ids) o) as [doc | e]; cbn; [| by rewrite Hnil].
  rewrite M_bind_run.
  destruct (doc_truthy doc).
  - rewrite M_bind_run, lift_run.
    destruct (py_iter doc) as [items | e]; cbn; [| by rewrite Hnil].
    rewrite M_bind_run, lift_run.
    destruct (Single.new_activities_loop _ items []) as [new | e]; cbn;
      [| by rewrite Hnil].
    destruct new as [| a new]; [cbn; by rewrite Hnil |].
    rewrite M_bind_run, lift_run. cbn [nonempty andb].
    destruct (Single.describe_loop (a :: new)) as [[] | e];
      [| cbn [succeeds]; by rewrite Hnil].
    cbn [succeeds].
    destruct (telegram_target _ _) as [[token chat] |]; cbn.
    + rewrite M_bind_run, send_telegram_message_run. reflexivity.
    + by rewrite app_nil_r.
  - cbn. by rewrite Hnil.
Qed.
End SingleRuns.

(** ** The filter loops on any fetched items *)

Section Loops.
Context `{rt : PyRuntime}.

(** Whatever the items, what a filter loop adds are records of the feed
    that pass its test. *)
Lemma multi_loop_sound W items acc new :
  Multi.new_activities_loop W items acc = Ok new →
  ∃ added, new = acc ++ added
           ∧ Forall (λ a, multi_appends W a = true ∧ ItemObj a ∈ items) added
           ∧ (length added ≤ length items)%nat.
Proof.
  revert acc; induction items as [| x items IH]; intros acc; cbn.
  - intros [= <-]. exists []. rewrite app_nil_r. split_and!; [done | constructor | cbn; lia].
  - destruct x as [a | v]; [| discriminate].
    intros H.
    assert (∃ acc', Multi.new_activities_loop W items acc' = Ok new
                    ∧ (acc' = acc ∨ (acc' = acc ++ [a] ∧ multi_appends W a = true)))
      as (acc' & Hloop & Hacc).
    { unfold multi_appends, timestamp_of.
      destruct (py_truthy (dict_get a "timestamp")); cbn in H |- *; [| eauto].
      destruct (Multi.is_new W (dict_get a "timestamp")) as [[] | e] eqn:E;
        cbn in H; [eauto | eauto |].
      rewrite (multi_is_new_raises _ _ _ E) in H. cbn in H. eauto. }
    apply IH in Hloop as (added & -> & Hall & Hlen).
    assert (Forall (λ a0, multi_appends W a0 = true ∧ ItemObj a0 ∈ ItemObj a :: items) added)
      as Hall'.
    { eapply Forall_impl; [exact Hall |]. intros b [? ?]. split; [done | by right]. }
    destruct Hacc as [-> | [-> Ha]].
    + exists added. split_and!; [done | done | cbn; lia].
    + exists (a :: added). rewrite <- app_assoc. split_and!; [done | | cbn; lia].
      constructor; [| done]. split; [done | by left].
Qed.

Lemma single_loop_sound W items acc new :
  Single.new_activities_loop W items acc = Ok new →
  ∃ added, new = acc ++ added
           ∧ Forall (λ a, single_appends W a = true ∧ ItemObj a ∈ items) added
           ∧ (length added ≤ length items)%nat.
Proof.
  revert acc; induction items as [| x items IH]; intros acc; cbn.
  - intros [= <-]. exists []. rewrite app_nil_r. split_and!; [done | constructor | cbn; lia].
  - destruct x as [a | v]; [| discriminate].
    intros H.
    assert (∃ acc', Single.new_activities_loop W items acc' = Ok new
                    ∧ (acc' = acc ∨ (acc' = acc ++ [a] ∧ single_appends W a = true)))
      as (acc' & Hloop & Hacc).
    { unfold single_appends, timestamp_of.
      destruct (py_truthy (dict_get a "timestamp")); cbn in H |- *; [| eauto].
      destruct (Single.is_new W (dict_get a "timestamp")) as [[] | e] eqn:E;
        cbn in H; [eauto | eauto |].
      rewrite (single_is_new_raises _ _ _ E) in H. cbn in H. eauto. }
    apply IH in Hloop as (added & -> & Hall & Hlen).
    assert (Forall (λ a0, single_appends W a0 = true ∧ ItemObj a0 ∈ ItemObj a :: items) added)
      as Hall'.
    { eapply Forall_impl; [exact Hall |]. intros b [? ?]. split; [done | by right]. }
    destruct Hacc as [-> | [-> Ha]].
    + exists added. split_and!; [done | done | cbn; lia].
    + exists (a :: added). rewrite <- app_assoc. split_and!; [done | | cbn; lia].
      constructor; [| done]. split; [done | by left].
Qed.

(** What a fetched document holds, as far as the loops can tell. *)
Lemma multi_detect_sound W doc new :
  multi_detect W doc = Ok new →
  Forall (λ a, multi_appends W a = true) new
  ∧ ∀ items, doc = DocArray items → (length new ≤ length items)%nat.
Proof.
  unfold multi_detect. destruct (doc_truthy doc).
  - destruct (py_iter doc) as [its | e] eqn:Ei; cbn; [| discriminate].
    intros (added & -> & Hall & Hlen)%multi_loop_sound. cbn. split.
    + eapply Forall_impl; [exact Hall |]. by intros b [? _].
    + intros items ->. cbn in Ei. by injection Ei as ->.
  - intros [= <-]. split; [constructor |]. intros; cbn; lia.
Qed.

Lemma single_detect_sound W doc new :
  single_detect W doc = Ok new →
  Forall (λ a, single_appends W a = true) new
  ∧ ∀ items, doc = DocArray items → (length new ≤ length items)%nat.
Proof.
  unfold single_detect. destruct (doc_truthy doc).
  - destruct (py_iter doc) as [its | e] eqn:Ei; cbn; [| discriminate].
    intros (added & -> & Hall & Hlen)%single_loop_sound. cbn. split.
    + eapply Forall_impl; [exact Hall |]. by intros b [? _].
    + intros items ->. cbn in Ei. by injection Ei as ->.
  - intros [= <-]. split; [constructor |]. intros; cbn; lia.
Qed.

(** ** The loop over the new activities of [main.py] *)

Lemma describe_activity_latest a latest latest' :
  Multi.describe_activity a latest = Ok latest' →
  latest' = match py_int (timestamp_of a) with
            | Ok t => Z.max latest t
            | Raise _ => latest
            end.
Proof.
  unfold Multi.describe_activity, timestamp_of, dict_has, dict_get.
  destruct (py_float (dict_get_default a "size" _)); cbn; [| discriminate].
  destruct (py_float (dict_get_default a "price" _)); cbn; [| discriminate].
  destruct (a !! "timestamp") as [v |]; cbn.
  - destruct (py_int v) as [t |]; cbn; [| discriminate].
    destruct (fromtimestamp t); cbn; [| discriminate].
    intros [= <-]. destruct (Z.ltb_spec latest t); lia.
  - by intros [= <-].
Qed.

Lemma notify_result_latest new latest name latest' name' :
  multi_notify_result new latest name = Ok (latest', name') →
  latest' = max_timestamp new latest ∧ attempted new latest = new
  ∧ (new ≠ [] → is_Some name').
Proof.
  revert latest name; induction new as [| a new IH]; intros latest name; cbn.
  - intros H; inversion H; subst. done.
  - destruct (Multi.describe_activity a latest) as [l1 |] eqn:E; cbn; [| discriminate].
    intros H. pose proof H as H'. apply IH in H as (-> & -> & Hn).
    apply describe_activity_latest in E as ->.
    repeat split; try done. intros _.
    destruct new as [| b new]; [| by apply Hn].
    cbn in H'. inversion H'; subst. by eexists.
Qed.

Lemma max_timestamp_ge new W : W ≤ max_timestamp new W.
Proof.
  unfold max_timestamp. revert W; induction new as [| a new IH]; intros W; cbn; [lia |].
  etrans; [| apply IH]. destruct (py_int _); lia.
Qed.

Lemma max_timestamp_covers new W a t :
  a ∈ new → py_int (timestamp_of a) = Ok t → t ≤ max_timestamp new W.
Proof.
  unfold max_timestamp. revert W; induction new as [| b new IH]; intros W Hin Ht.
  - by apply elem_of_nil in Hin.
  - cbn. apply elem_of_cons in Hin as [<- | Hin].
    + rewrite Ht. etrans; [| apply max_timestamp_ge]. lia.
    + by apply IH.
Qed.
Lemma attempted_subset new latest a : a ∈ attempted new latest → a ∈ new.
Proof.
  revert latest; induction new as [| b new IH]; intros latest; cbn; [done |].
  destruct (Multi.describe_activity b latest); [| by intros ?%elem_of_nil].
  intros [-> | Hin]%elem_of_cons; [by left |]. right. by eapply IH.
Qed.
End Loops.

(** ** What a log reports *)

Lemma reported_posts mode target messages a :
  a ∈ reported (posts_of mode target messages) → a ∈ concat messages.
Proof.
  unfold reported, posts_of. destruct target as [[token chat] |]; cbn;
    [| by intros ?%elem_of_nil].
  induction messages as [| m messages IH]; cbn; [done |].
  rewrite !elem_of_app. intros [? | ?]; [by left | right; by apply IH].
Qed.

Lemma concat_singletons {A} (l : list A) : concat (map (λ a, [a]) l) = l.
Proof. induction l as [| a l IH]; cbn; [done | by rewrite IH]. Qed.

(** ** Which records are new *)

(** [get_specific_activity.py] does what the claim says under every
    watermark the program can hold (a reading of the clock, never
    negative), on every feed without the timestamp [inf], [int]
    refusing the empty string as CPython's does. *)
Lemma single_new_records_as_specified `{rt : PyRuntime} (W : Z) (R : list pydict) :
  int_of_str "" = None →
  0 ≤ W →
  Forall (λ a, timestamp_of a ≠ PyInf false) R →
  new_records_as_specified Single.new_activities_loop W R.
Proof.
  intros Hempty HW Hfinite. unfold new_records_as_specified.
  rewrite single_loop_filter. cbn. f_equal.
  induction Hfinite as [| a R Ha _ IH]; [reflexivity |].
  cbn [List.filter]. rewrite IH, (single_appends_claimed W a Ha).
  enough (claimed_new W a = true → py_truthy (timestamp_of a) = true) as Htruthy.
  { destruct (claimed_new W a); [by rewrite Htruthy | by rewrite andb_false_r]. }
  unfold claimed_new, coercible, exceeds. clear Ha IH.
  destruct (timestamp_of a) as [| b | z | q | s | l | n |]; cbn; try done.
  - destruct b; [done |]. cbn. intros H%negb_true_iff.
    assert (Qle_bool (inject_Z 0) (inject_Z W) = true); [| congruence].
    apply Qle_bool_iff. rewrite <- Zle_Qle. lia.
  - intros H%negb_true_iff. destruct (Z.eqb_spec z 0) as [-> | _]; [| done].
    assert (Qle_bool (inject_Z 0) (inject_Z W) = true); [| congruence].
    apply Qle_bool_iff. rewrite <- Zle_Qle. lia.
  - intros H%negb_true_iff. destruct (Qeq_bool q 0) eqn:E; [| done].
    apply Qeq_bool_iff in E.
    assert (Qle_bool q (inject_Z W) = true); [| congruence].
    apply Qle_bool_iff. rewrite E. change 0%Q with (inject_Z 0).
    rewrite <- Zle_Qle. lia.
  - destruct (int_of_str s) as [z |] eqn:Es; cbn; [| done].
    intros _. destruct s; [congruence | done].
Qed.

(** C1 (the code departs from the claim): [main.py] tests the timestamp
    with [!=] under the comment "newer than our last check".  A monitor
    that has reported a record stamped 100, and holds watermark 100, is
    served a record stamped 90: the claim excludes it, and
    [get_specific_activity.py], which tests with [>], classifies nothing
    as new; [main.py] classifies the older record as new and reports
    it. *)
Theorem multi_classifies_older_record_as_new :
  let older := stamped (PyInt 90) in
  let wallet := "0x37e4728b3c4607fb2b3b205386bb1d1fb1a8c991" in
  let at_100 := {| Multi.last_check_timestamp := 100;
                   Multi.activity_name := Some (PyStr "N/A") |} in
  claimed_new (rt := posix_runtime) 100 older = false
  ∧ Single.new_activities_loop (rt := posix_runtime) 100 [ItemObj older] [] = Ok []
  ∧ new_records_as_specified (rt := posix_runtime)
      (Single.new_activities_loop (rt := posix_runtime)) 100 [older]
  ∧ Multi.new_activities_loop (rt := posix_runtime) 100 [ItemObj older] [] = Ok [older]
  ∧ ¬ new_records_as_specified (rt := posix_runtime)
        (Multi.new_activities_loop (rt := posix_runtime)) 100 [older]
  ∧ Multi.monitor_iteration (rt := posix_runtime) (serving (records [older]))
      (Some "token") (Some "chat") wallet at_100 []
    = (Ok at_100,
       [ Multi.activity_request wallet;
         telegram_post (Some "HTML") "token" "chat" [older] ])
  ∧ Multi.monitor_user_trades (rt := posix_runtime)
      (serving_in_turn (records [stamped (PyInt 100)]) (records [older]))
      (Some "token") (Some "chat") wallet 2 []
    = (Ok at_100,
       [ Multi.activity_request wallet;
         telegram_post (Some "HTML") "token" "chat" [stamped (PyInt 100)];
         Multi.activity_request wallet;
         telegram_post (Some "HTML") "token" "chat" [older] ]).
Proof.
  intros older wallet at_100. split_and!.
  - reflexivity.
  - reflexivity.
  - reflexivity.
  - reflexivity.
  - unfold new_records_as_specified. intros H. vm_compute in H. discriminate.
  - vm_compute. reflexivity.
  - vm_compute. reflexivity.
Qed.

(** C10: in both programs a record whose timestamp is absent or falsy
    (zero, empty) is never among the new records, whatever the watermark
    and the rest of the feed, and no message of a turn reports it. *)
Theorem falsy_timestamp_never_reported `{rt : PyRuntime}
    (net : nat → request → http_outcome) (telegram_bot_token telegram_chat_id : option string)
    (a : pydict) :
  py_truthy (timestamp_of a) = false →
  (∀ W items new, Multi.new_activities_loop W items [] = Ok new → a ∉ new)
  ∧ (∀ W items new, Single.new_activities_loop W items [] = Ok new → a ∉ new)
  ∧ (∀ wallet st log, ∃ sent,
       (Multi.monitor_iteration net telegram_bot_token telegram_chat_id wallet st log).2
       = log ++ sent ∧ a ∉ reported sent)
  ∧ (∀ wallet ids now W log, ∃ sent,
       (Single.monitor_iteration net telegram_bot_token telegram_chat_id
          wallet ids now W log).2
       = log ++ sent ∧ a ∉ reported sent).
Proof.
  intros Hfalsy.
  assert (∀ W new, Forall (λ b, multi_appends W b = true) new → a ∉ new) as Hm.
  { intros W new Hall Hin. rewrite Forall_forall in Hall.
    apply Hall, multi_appends_truthy in Hin. congruence. }
  assert (∀ W new, Forall (λ b, single_appends W b = true) new → a ∉ new) as Hs.
  { intros W new Hall Hin. rewrite Forall_forall in Hall.
    apply Hall, single_appends_truthy in Hin. congruence. }
  split_and!.
  - intros W items new (added & -> & Hall & _)%multi_loop_sound. cbn.
    apply (Hm W). eapply Forall_impl; [exact Hall |]. by intros b [? _].
  - intros W items new (added & -> & Hall & _)%single_loop_sound. cbn.
    apply (Hs W). eapply Forall_impl; [exact Hall |]. by intros b [? _].
  - intros wallet st log. rewrite multi_monitor_iteration_run. cbn.
    eexists; split; [reflexivity |].
    intros Hin. apply reported_posts in Hin.
    rewrite concat_singletons in Hin.
    unfold multi_attempted in Hin.
    destruct (multi_detect _ _) as [new |] eqn:E; [| by apply elem_of_nil in Hin].
    apply attempted_subset in Hin.
    apply multi_detect_sound in E as [Hall _]. by eapply Hm.
  - intros wallet ids now W log. rewrite single_monitor_iteration_run. cbn.
    eexists; split; [reflexivity |].
    intros Hin. apply reported_posts in Hin.
    unfold single_messages in Hin.
    destruct (single_fetched _ _) as [doc |]; cbn in Hin; [| by apply elem_of_nil in Hin].
    destruct (single_detect W doc) as [new |] eqn:E; [| by apply elem_of_nil in Hin].
    apply single_detect_sound in E as [Hall _].
    destruct (nonempty new && succeeds (Single.describe_loop new)); cbn in Hin;
      [| by apply elem_of_nil in Hin].
    rewrite app_nil_r in Hin. by eapply Hs.
Qed.

(** A record with timestamp 0 under watermark 5, where [0 != 5] alone
    would admit it, and the turn that fetches it. *)
Lemma falsy_timestamp_never_reported_witness :
  py_truthy (timestamp_of (stamped (PyInt 0))) = false
  ∧ py_ne (PyInt 0) 5 = true
  ∧ (∀ W items new,
       Multi.new_activities_loop (rt := posix_runtime) W items [] = Ok new →
       stamped (PyInt 0) ∉ new).
Proof.
  split; [reflexivity |]. split; [reflexivity |].
  apply (falsy_timestamp_never_reported (rt := posix_runtime)
           (serving (records [stamped (PyInt 0)])) (Some "token") (Some "chat")
           (stamped (PyInt 0))).
  reflexivity.
Defined.

(** ** The watermark *)

(** C2 (as stated, refuted): in [get_specific_activity.py] a turn that
    finds nothing, started with watermark 100 when the clock reads 110,
    ends with watermark 110, not 100. *)
Lemma watermark_as_specified_fails :
  ¬ (∀ W' log' new,
       Single.monitor_iteration (rt := posix_runtime) (serving (records []))
         None None "0x37e4728b3c4607fb2b3b205386bb1d1fb1a8c991" [] 110 100 []
       = (Ok W', log') →
       single_detect (rt := posix_runtime) 100 (records []) = Ok new →
       watermark_as_specified 100 W' new).
Proof.
  intros H. specialize (H 110 _ [] eq_refl eq_refl) as [_ H].
  specialize (H eq_refl). discriminate.
Qed.

(** C2 (amended): a turn of [main.py] that completes ends with the
    greatest of the old watermark and the integer timestamps of the new
    records: never less than the old watermark, and equal to it when no
    record is new.  A turn of [get_specific_activity.py] that completes
    ends with the reading of the clock at its start, whatever was
    fetched. *)
Theorem watermark_after_turn `{rt : PyRuntime}
    (net : nat → request → http_outcome) (telegram_bot_token telegram_chat_id : option string)
    (wallet : string) :
  (∀ st log st' log',
     Multi.monitor_iteration net telegram_bot_token telegram_chat_id wallet st log
     = (Ok st', log') →
     ∃ new,
       multi_detect (Multi.last_check_timestamp st)
         (multi_fetched (net (length log) (Multi.activity_request wallet))) = Ok new
       ∧ Multi.last_check_timestamp st'
         = max_timestamp new (Multi.last_check_timestamp st)
       ∧ watermark_as_specified (Multi.last_check_timestamp st)
           (Multi.last_check_timestamp st') new)
  ∧ (∀ ids now W log W' log',
       Single.monitor_iteration net telegram_bot_token telegram_chat_id
         wallet ids now W log = (Ok W', log') →
       W' = now).
Proof.
  split.
  - intros st log st' log' (_ & H & _)%multi_turn_ok.
    unfold multi_iteration_result in H.
    destruct (multi_detect _ _) as [new |]; cbn in H; [| discriminate].
    exists new. split; [reflexivity |].
    destruct new as [| a new].
    + destruct (read_local _); cbn in H; [| discriminate].
      injection H as <-. cbn. split; [reflexivity |]. split; [lia | done].
    + destruct (multi_notify_result (a :: new) _ _) as [[latest name] |] eqn:E;
        cbn in H; [| discriminate].
      destruct (read_local name); cbn in H; [| discriminate].
      injection H as <-. cbn [Multi.last_check_timestamp].
      apply notify_result_latest in E as (-> & _ & _).
      split; [reflexivity |]. split; [apply max_timestamp_ge | done].
  - intros ids now W log W' log'. rewrite single_monitor_iteration_run. cbn zeta.
    intros [= H _]. unfold single_iteration_result in H.
    destruct (single_fetched _ _); cbn in H; [| discriminate].
    destruct (single_detect _ _); cbn in H; [| discriminate].
    destruct (Single.describe_loop _); cbn in H; [| discriminate].
    by injection H as <-.
Qed.

(** Three turns that complete.  [main.py] on the scenario's feed goes
    from watermark 100 to 150; on a feed with nothing new, once
    [activity_name] is assigned, it stays at 100;
    [get_specific_activity.py] goes from 100 to the clock's 110. *)
Lemma watermark_after_turn_witness :
  let wallet := "0x37e4728b3c4607fb2b3b205386bb1d1fb1a8c991" in
  let at_100 name := {| Multi.last_check_timestamp := 100; Multi.activity_name := name |} in
  (Multi.monitor_iteration (rt := posix_runtime) (serving (records scenario_feed))
     None None wallet (at_100 None) []
   = (Ok {| Multi.last_check_timestamp := 150; Multi.activity_name := Some (PyStr "N/A") |},
      [Multi.activity_request wallet])
   ∧ ∃ new,
       multi_detect (rt := posix_runtime) 100 (records scenario_feed) = Ok new
       ∧ 150 = max_timestamp (rt := posix_runtime) new 100
       ∧ watermark_as_specified 100 150 new)
  ∧ (Multi.monitor_iteration (rt := posix_runtime) (serving (records [stamped (PyInt 100)]))
       None None wallet (at_100 (Some (PyStr "N/A"))) []
     = (Ok (at_100 (Some (PyStr "N/A"))), [Multi.activity_request wallet])
     ∧ ∃ new,
         multi_detect (rt := posix_runtime) 100 (records [stamped (PyInt 100)]) = Ok new
         ∧ 100 = max_timestamp (rt := posix_runtime) new 100
         ∧ watermark_as_specified 100 100 new)
  ∧ (Single.monitor_iteration (rt := posix_runtime) (serving (records scenario_feed))
       None None wallet [] 110 100 []
     = (Ok 110, [Single.activity_request wallet])
     ∧ 110 = 110).
Proof.
  intros wallet at_100.
  pose proof (watermark_after_turn (rt := posix_runtime)
                (serving (records scenario_feed)) None None wallet) as [Hm Hs].
  pose proof (watermark_after_turn (rt := posix_runtime)
                (serving (records [stamped (PyInt 100)])) None None wallet) as [Hm' _].
  split_and!.
  - vm_compute. reflexivity.
  - apply (Hm (at_100 None) []
              {| Multi.last_check_timestamp := 150;
                 Multi.activity_name := Some (PyStr "N/A") |}
              [Multi.activity_request wallet]).
    vm_compute. reflexivity.
  - vm_compute. reflexivity.
  - apply (Hm' (at_100 (Some (PyStr "N/A"))) [] (at_100 (Some (PyStr "N/A")))
               [Multi.activity_request wallet]).
    vm_compute. reflexivity.
  - vm_compute. reflexivity.
  - apply (Hs [] 110 100 [] 110 [Single.activity_request wallet]).
    vm_compute. reflexivity.
Defined.

(** ** The scenario: watermark 100, timestamps 90, 150, 100 *)

Lemma stamped_inj (v w : pyval) : stamped v = stamped w → v = w.
Proof.
  intros H. apply (f_equal (λ m : pydict, m !! "timestamp")) in H.
  unfold stamped in H. rewrite !lookup_singleton_eq in H. by injection H.
Qed.

(** C3 (as stated, refuted): [get_specific_activity.py] run on the
    scenario when the clock reads 110 does not produce next watermark
    150. *)
Lemma scenario_watermark_fails :
  ¬ (∃ log',
       Single.monitor_iteration (rt := posix_runtime) (serving (records scenario_feed))
         None None "0x37e4728b3c4607fb2b3b205386bb1d1fb1a8c991" [] 110 100 []
       = (Ok 150, log')).
Proof. intros [log' H]. vm_compute in H. discriminate. Qed.

(** C3 (amended): on the scenario, [get_specific_activity.py] classifies
    exactly the record with timestamp 150 as new and its next watermark
    is the reading of the clock; [main.py] classifies the record with
    timestamp 150 as new, does not classify the record with timestamp
    100, and produces next watermark 150. *)
Theorem scenario_turn (telegram_bot_token telegram_chat_id : option string)
    (wallet : string) (now : Z) (name : option pyval) (log : list request) :
  Single.new_activities_loop (rt := posix_runtime) 100 (map ItemObj scenario_feed) []
  = Ok [stamped (PyInt 150)]
  ∧ (Single.monitor_iteration (rt := posix_runtime) (serving (records scenario_feed))
       telegram_bot_token telegram_chat_id wallet [] now 100 log).1 = Ok now
  ∧ (∃ new,
       Multi.new_activities_loop (rt := posix_runtime) 100 (map ItemObj scenario_feed) []
       = Ok new
       ∧ stamped (PyInt 150) ∈ new ∧ stamped (PyInt 100) ∉ new)
  ∧ Multi.last_check_timestamp <$>
      (Multi.monitor_iteration (rt := posix_runtime) (serving (records scenario_feed))
         telegram_bot_token telegram_chat_id wallet
         {| Multi.last_check_timestamp := 100; Multi.activity_name := name |} log).1
    = Ok 150.
Proof.
  split_and!.
  - reflexivity.
  - rewrite single_monitor_iteration_run. reflexivity.
  - exists [stamped (PyInt 90); stamped (PyInt 150)]. split; [reflexivity |]. split.
    + apply elem_of_cons. right. apply elem_of_cons. by left.
    + intros Hin.
      repeat (apply elem_of_cons in Hin as [Hin%stamped_inj | Hin]; [discriminate |]).
      by apply elem_of_nil in Hin.
  - rewrite multi_monitor_iteration_run. reflexivity.
Qed.

(** ** Malformed timestamps *)



(** C4 (the code departs from the claim): a record whose timestamp is a
    JSON array is not coercible; [get_specific_activity.py] drops it, but
    [main.py] compares it with [!=], which does not raise, classifies it
    as new, and the turn then raises [TypeError] at
    [int(activity.get('timestamp'))]. *)
Theorem multi_malformed_timestamp_raises
    (telegram_bot_token telegram_chat_id : option string) (wallet : string)
    (log : list request) :
  let bad := stamped (PyList [PyInt 1]) in
  coercible (rt := posix_runtime) (timestamp_of bad) = false
  ∧ Single.new_activities_loop (rt := posix_runtime) 0 [ItemObj bad] [] = Ok []
  ∧ Multi.new_activities_loop (rt := posix_runtime) 0 [ItemObj bad] [] = Ok [bad]
  ∧ (Multi.monitor_iteration (rt := posix_runtime) (serving (records [bad]))
       telegram_bot_token telegram_chat_id wallet Multi.initial_state log).1
    = Raise TypeError.
Proof.
  split_and!; [reflexivity .. |].
  rewrite multi_monitor_iteration_run. reflexivity.
Qed.

(** ** A failed poll *)

(** The fetchers themselves: a poll that fails yields the empty list
    and raises nothing, in both programs. *)
Lemma get_user_activity_failed `{rt : PyRuntime}
    (net : nat → request → http_outcome) (wallet : string)
    (ids : option (list pyval)) (log : list request) :
  (failed (net (length log) (Multi.activity_request wallet)) = true →
   Multi.get_user_activity net wallet log
   = (Ok (DocArray []), log ++ [Multi.activity_request wallet]))
  ∧ (failed (net (length log) (Single.activity_request wallet)) = true →
     Single.get_user_activity net wallet ids log
     = (Ok (DocArray []), log ++ [Single.activity_request wallet])).
Proof.
  split; intros Hf.
  - rewrite multi_get_user_activity_run. f_equal.
    unfold multi_polled, escaping, multi_fetched, failed in *.
    destruct (net _ _) as [| status [| d | f]]; try reflexivity;
      rewrite orb_false_r in Hf; by rewrite Hf.
  - rewrite single_get_user_activity_run. f_equal.
    unfold single_fetched, failed in *.
    destruct (net _ _) as [| status [| d | f]]; try reflexivity;
      rewrite orb_false_r in Hf; by rewrite Hf.
Qed.

(** The loop of [get_specific_activity.py] goes on after a failed poll. *)
Lemma single_turn_survives_failed_poll `{rt : PyRuntime}
    (net : nat → request → http_outcome) (telegram_bot_token telegram_chat_id : option string)
    (wallet : string) (ids : list pyval) (now W : Z) (log : list request) :
  failed (net (length log) (Single.activity_request wallet)) = true →
  Single.monitor_iteration net telegram_bot_token telegram_chat_id wallet ids now W log
  = (Ok now, log ++ [Single.activity_request wallet]).
Proof.
  intros Hf. rewrite single_monitor_iteration_run. cbn zeta.
  unfold single_iteration_result, single_messages.
  assert (single_fetched (Some ids) (net (length log) (Single.activity_request wallet))
          = Ok (DocArray [])) as ->.
  { unfold single_fetched, failed in *.
    destruct (net _ _) as [| status [| d | f]]; try reflexivity;
      rewrite orb_false_r in Hf; by rewrite Hf. }
  cbn. by destruct (telegram_target _ _) as [[] |].
Qed.

(** So does the loop of [main.py] once [activity_name] has been
    assigned. *)
Lemma multi_turn_survives_failed_poll_once_named `{rt : PyRuntime}
    (net : nat → request → http_outcome) (telegram_bot_token telegram_chat_id : option string)
    (wallet : string) (W : Z) (name : pyval) (log : list request) :
  failed (net (length log) (Multi.activity_request wallet)) = true →
  Multi.monitor_iteration net telegram_bot_token telegram_chat_id wallet
    {| Multi.last_check_timestamp := W; Multi.activity_name := Some name |} log
  = (Ok {| Multi.last_check_timestamp := W; Multi.activity_name := Some name |},
     log ++ [Multi.activity_request wallet]).
Proof.
  intros Hf. rewrite multi_monitor_iteration_run. cbn zeta.
  rewrite multi_turn_result_loaded by (by apply failed_loaded).
  rewrite (failed_fetched _ Hf).
  cbn. by destruct (telegram_target _ _) as [[] |].
Qed.

(** C5 (the code departs from the claim): when the first poll of a
    monitor of [main.py] fails, [get_user_activity] returns the empty list
    and raises nothing, as claimed, but the loop then reads
    [activity_name], which no turn has assigned yet, and ends with
    [UnboundLocalError]. *)
Theorem multi_first_poll_failure_ends_loop
    (telegram_bot_token telegram_chat_id : option string) (wallet : string) :
  Multi.get_user_activity unreachable wallet []
  = (Ok (DocArray []), [Multi.activity_request wallet])
  ∧ Multi.monitor_user_trades (rt := posix_runtime) unreachable
      telegram_bot_token telegram_chat_id wallet 1 []
    = (Raise UnboundLocalError, [Multi.activity_request wallet]).
Proof.
  split; [reflexivity |].
  unfold Multi.monitor_user_trades. cbn [Multi.iterate].
  rewrite M_bind_run, multi_monitor_iteration_run. cbn.
  by destruct (telegram_target _ _) as [[] |].
Qed.

(** ** Delivery failures *)

Section Delivery.
Context `{rt : PyRuntime}.

Lemma appended_has_timestamp W a :
  multi_appends W a = true → dict_has a "timestamp" = true.
Proof.
  intros H%multi_appends_truthy. unfold timestamp_of, dict_get, dict_has in *.
  by destruct (a !! "timestamp").
Qed.

(** When the loop over the new activities completes, the timestamp of
    each of them converted. *)
Lemma notify_result_converts new latest name r :
  multi_notify_result new latest name = Ok r →
  Forall (λ a, dict_has a "timestamp" = true → ∃ t, py_int (timestamp_of a) = Ok t) new.
Proof.
  revert latest name; induction new as [| a new IH]; intros latest name; cbn;
    [constructor |].
  destruct (Multi.describe_activity a latest) as [l1 |] eqn:E; cbn; [| discriminate].
  intros H. constructor; [| by eapply IH].
  intros Hts. unfold Multi.describe_activity, timestamp_of in *.
  destruct (py_float (dict_get_default a "size" _)); cbn in E; [| discriminate].
  destruct (py_float (dict_get_default a "price" _)); cbn in E; [| discriminate].
  rewrite Hts in E.
  destruct (py_int (dict_get a "timestamp")) as [t |]; [by eexists | discriminate].
Qed.

(** The result of a turn of [main.py] and the requests it logs depend on
    the network through the answer to its poll alone. *)
Lemma multi_turn_same_feeds net net' tb tc wallet st log :
  same_feeds net net' →
  Multi.monitor_iteration net' tb tc wallet st log
  = Multi.monitor_iteration net tb tc wallet st log.
Proof.
  intros Hsame. rewrite !multi_monitor_iteration_run. cbn zeta.
  unfold Multi.activity_request. by rewrite Hsame.
Qed.
End Delivery.

(** C6: in a turn of [main.py] that completes, one message is attempted
    for each new record, in feed order and whatever the relay answered
    to the others; the watermark the turn commits is at least the
    timestamp of every new record; and the turn, its result and its
    requests, is the same under any network that differs only in what
    the relay answers, so nothing is sent again or kept for later on a
    failure. *)
Theorem delivery_failure_is_not_fatal `{rt : PyRuntime}
    (net : nat → request → http_outcome) (telegram_bot_token telegram_chat_id : option string)
    (token chat wallet : string) (st st' : Multi.monitor_state) (log log' : list request) :
  telegram_target telegram_bot_token telegram_chat_id = Some (token, chat) →
  Multi.monitor_iteration net telegram_bot_token telegram_chat_id wallet st log
  = (Ok st', log') →
  ∃ new,
    multi_detect (Multi.last_check_timestamp st)
      (multi_fetched (net (length log) (Multi.activity_request wallet))) = Ok new
    ∧ log' = log ++ Multi.activity_request wallet
                 :: map (λ a, telegram_post (Some "HTML") token chat [a]) new
    ∧ (∀ a, a ∈ new →
         ∃ t, py_int (timestamp_of a) = Ok t ∧ t ≤ Multi.last_check_timestamp st')
    ∧ ∀ net', same_feeds net net' →
        Multi.monitor_iteration net' telegram_bot_token telegram_chat_id wallet st log
        = (Ok st', log').
Proof.
  intros Htarget Hrun.
  assert (∀ net', same_feeds net net' →
            Multi.monitor_iteration net' telegram_bot_token telegram_chat_id wallet st log
            = (Ok st', log')) as Hsame.
  { intros net' H. by rewrite (multi_turn_same_feeds net net'). }
  apply multi_turn_ok in Hrun as (_ & Hres & Hlog). cbn zeta in *.
  rewrite Htarget in Hlog.
  unfold multi_iteration_result, multi_attempted in *.
  destruct (multi_detect _ _) as [new |] eqn:Ed; cbn in Hres; [| discriminate].
  exists new. split; [reflexivity |].
  destruct new as [| a new].
  { split_and!; [by subst | by intros ? ?%elem_of_nil | done]. }
  destruct (multi_notify_result (a :: new) _ _) as [[latest name] |] eqn:En;
    cbn in Hres; [| discriminate].
  destruct (read_local name); cbn in Hres; [| discriminate].
  injection Hres as <-. cbn [Multi.last_check_timestamp].
  pose proof (notify_result_converts _ _ _ _ En) as Hconv.
  apply notify_result_latest in En as (-> & Hatt & _).
  rewrite Hatt in Hlog. subst log'.
  split_and!; [| | done].
  - cbn. by rewrite map_map.
  - intros b Hb.
    apply multi_detect_sound in Ed as [Hall _].
    rewrite Forall_forall in Hall, Hconv.
    destruct (Hconv b Hb (appended_has_timestamp _ _ (Hall b Hb))) as [t Ht].
    exists t. split; [done |]. by eapply max_timestamp_covers.
Qed.

(** Three new records, and the relay timing out on the second of them:
    the three messages are attempted and the watermark covers the
    three. *)
Lemma delivery_failure_is_not_fatal_witness :
  let feed := [stamped (PyInt 10); stamped (PyInt 20); stamped (PyInt 30)] in
  delivered (relay_fails_at 2 (records feed) 2
               (telegram_post (Some "HTML") "token" "chat" [stamped (PyInt 20)])) = false
  ∧ ∃ new,
      multi_detect (rt := posix_runtime) 0 (records feed) = Ok new
      ∧ [ Multi.activity_request "0x37e4";
          telegram_post (Some "HTML") "token" "chat" [stamped (PyInt 10)];
          telegram_post (Some "HTML") "token" "chat" [stamped (PyInt 20)];
          telegram_post (Some "HTML") "token" "chat" [stamped (PyInt 30)] ]
        = [] ++ Multi.activity_request "0x37e4"
             :: map (λ a, telegram_post (Some "HTML") "token" "chat" [a]) new
      ∧ (∀ a, a ∈ new → ∃ t, py_int (rt := posix_runtime) (timestamp_of a) = Ok t ∧ t ≤ 30)
      ∧ ∀ net', same_feeds (relay_fails_at 2 (records feed)) net' →
          Multi.monitor_iteration (rt := posix_runtime) net' (Some "token") (Some "chat")
            "0x37e4" Multi.initial_state []
          = (Ok {| Multi.last_check_timestamp := 30;
                   Multi.activity_name := Some (PyStr "N/A") |},
             [ Multi.activity_request "0x37e4";
               telegram_post (Some "HTML") "token" "chat" [stamped (PyInt 10)];
               telegram_post (Some "HTML") "token" "chat" [stamped (PyInt 20)];
               telegram_post (Some "HTML") "token" "chat" [stamped (PyInt 30)] ]).
Proof.
  intros feed. split; [reflexivity |].
  apply (delivery_failure_is_not_fatal (rt := posix_runtime)
           (relay_fails_at 2 (records feed)) (Some "token") (Some "chat")
           "token" "chat" "0x37e4" Multi.initial_state
           {| Multi.last_check_timestamp := 30; Multi.activity_name := Some (PyStr "N/A") |}
           []).
  - reflexivity.
  - vm_compute. reflexivity.
Defined.

(** ** Resolving markets by tag *)

Section Tags.
Variable net : nat → request → http_outcome.

Lemma markets_of_failed tag_id o : failed o = true → markets_of tag_id o = [].
Proof.
  unfold failed, markets_of. destruct o as [| status [| d | f]]; try reflexivity.
  rewrite orb_false_r. intros ->. by destruct d.
Qed.

Lemma markets_of_records tag_id status R :
  error_status status = false →
  markets_of tag_id (Response status (Json (records R))) = map (market_entry tag_id) R.
Proof.
  intros Hs. unfold markets_of, records. rewrite Hs.
  induction R as [| m R IH]; cbn; [done | by rewrite IH].
Qed.

(** The inner loop of [get_markets_by_tags] on an array of objects. *)
Lemma entries_of_records tag_id (R : list pydict) :
  mapM (λ market,
          question ← item_get market "question";
          condition_id ← item_get market "conditionId";
          mret ({[ "question" := question; "condition_id" := condition_id;
                   "tag_id" := tag_id ]} : pydict)) (map ItemObj R)
  = Ok (map (market_entry tag_id) R).
Proof.
  induction R as [| m R IH]; [reflexivity |].
  cbn [map mapM]. rewrite IH. reflexivity.
Qed.

(** One turn of the loop over the tags: a failed request leaves the
    list as it was, an array of objects adds its entries. *)
Lemma tag_turn_run tag_id limit all_markets log :
  let o := net (length log) (tag_request tag_id limit) in
  (failed o = true
   ∨ ∃ status R, o = Response status (Json (records R)) ∧ error_status status = false) →
  try_except_M
    (found ← fetch_tag_markets net tag_id limit; mret (all_markets ++ found))
    is_RequestException (λ _, mret all_markets) log
  = (Ok (all_markets ++ markets_of tag_id o), log ++ [tag_request tag_id limit]).
Proof.
  intros o Ho. unfold try_except_M, fetch_tag_markets.
  rewrite !M_bind_run. unfold send_request. fold (tag_request tag_id limit). fold o.
  destruct Ho as [Hf | (status & R & Ho & Hs)].
  - rewrite (markets_of_failed _ _ Hf), app_nil_r. unfold failed in Hf.
    destruct o as [[] | status [| d | f]]; cbn; try reflexivity.
    + unfold raise_for_status. unfold error_status in Hf.
      destruct ((400 <=? status) && (status <? 600)); reflexivity.
    + rewrite orb_false_r in Hf. unfold raise_for_status. unfold error_status in Hf.
      by rewrite Hf.
    + rewrite orb_false_r in Hf. unfold raise_for_status. unfold error_status in Hf.
      by rewrite Hf.
  - rewrite Ho, (markets_of_records _ _ _ Hs). cbn.
    unfold raise_for_status. unfold error_status in Hs. rewrite Hs. cbn.
    unfold records.
    repeat first [rewrite M_bind_run | rewrite lift_run | progress cbn [py_iter]].
    rewrite entries_of_records. reflexivity.
Qed.

Lemma get_markets_loop_run tag_ids limit all_markets log :
  well_answered net tag_ids limit (length log) →
  get_markets_loop net tag_ids limit all_markets log
  = (Ok (all_markets ++ contributions net tag_ids limit (length log)),
     log ++ map (λ tag_id, tag_request tag_id limit) tag_ids).
Proof.
  revert all_markets log; induction tag_ids as [| tag_id rest IH];
    intros all_markets log; cbn [well_answered get_markets_loop contributions map].
  - intros _. by rewrite !app_nil_r.
  - intros [Ho Hrest]. rewrite M_bind_run, (tag_turn_run _ _ _ _ Ho).
    rewrite IH; rewrite length_app; cbn [length];
      replace (length log + 1)%nat with (S (length log)) by lia; [| done].
    by rewrite <- !app_assoc.
Qed.
End Tags.

(** When every tag's request either fails as a [RequestException] (no
    response, an error status, a body that is not JSON) or is answered
    with an array of market objects, [get_markets_by_tags] issues one
    request per tag, in order, and returns the contributions of the tags
    one after the other; a tag whose request fails contributes nothing,
    and the tags after it are still asked. *)
Lemma get_markets_by_tags_run
    (net : nat → request → http_outcome) (tag_ids : list pyval) (limit : Z)
    (log : list request) :
  well_answered net tag_ids limit (length log) →
  get_markets_by_tags net tag_ids limit log
  = (Ok (contributions net tag_ids limit (length log)),
     log ++ map (λ tag_id, tag_request tag_id limit) tag_ids)
  ∧ ∀ tag_id o, failed o = true → markets_of tag_id o = [].
Proof.
  intros Hw. split; [| apply markets_of_failed].
  unfold get_markets_by_tags. by rewrite get_markets_loop_run.
Qed.

(** Three tags, the request of the second answered with an error page:
    the markets of the first and of the third are returned. *)
Lemma get_markets_by_tags_run_example :
  let market := {[ "question" := PyStr "Rain tomorrow?"; "conditionId" := PyStr "0xc1" ]} in
  let net := fails_at 1 (records [market]) in
  let tag_ids := [PyStr "82"; PyStr "306"; PyStr "7"] in
  failed (net 1%nat (tag_request (PyStr "306") 1000)) = true
  ∧ get_markets_by_tags net tag_ids 1000 []
    = (Ok [market_entry (PyStr "82") market; market_entry (PyStr "7") market],
       [] ++ map (λ tag_id, tag_request tag_id 1000) tag_ids).
Proof.
  intros market net tag_ids. split; [reflexivity |].
  refine (proj1 (get_markets_by_tags_run net tag_ids 1000 [] _)).
  cbn. split_and!; try done.
  - right. exists 200, [market]. done.
  - by left.
  - right. exists 200, [market]. done.
Qed.

(** C7 (the code departs from the claim): the [except] of
    [get_markets_by_tags] names [RequestException] only.  When the
    response of a tag has a good status and the decoder raises on its
    body something that is not one ([ValueError] on an integer of more
    digits than [int] converts, [RecursionError] on a body nested too
    deep), the parse of that tag has failed and the exception escapes
    the whole resolution: the markets of the tags before it are lost
    and the tags after it are not asked. *)
Theorem get_markets_by_tags_decoder_error_escapes
    (net : nat → request → http_outcome) (before after : list pyval) (tag_id : pyval)
    (limit : Z) (log : list request) (status : Z) (f : load_failure) :
  well_answered net before limit (length log) →
  net (length log + length before)%nat (tag_request tag_id limit)
  = Response status (Unloadable f) →
  ¬ (400 ≤ status < 600) →
  get_markets_by_tags net (before ++ tag_id :: after) limit log
  = (Raise (load_exn f),
     log ++ map (λ t, tag_request t limit) before ++ [tag_request tag_id limit])
  ∧ is_RequestException (load_exn f) = false.
Proof.
  intros Hw Hnet Hs. split; [| by destruct f].
  assert (error_status status = false) as Hs'.
  { unfold error_status. destruct (Z.leb_spec 400 status), (Z.ltb_spec status 600);
      cbn; try reflexivity. lia. }
  clear Hs. unfold get_markets_by_tags.
  generalize (@nil pydict) as all_markets. revert log Hw Hnet.
  induction before as [| t before IH]; intros log Hw Hnet all_markets.
  - cbn [app get_markets_loop map length] in *.
    rewrite Nat.add_0_r in Hnet.
    rewrite M_bind_run. unfold try_except_M, fetch_tag_markets.
    rewrite !M_bind_run. unfold send_request. fold (tag_request tag_id limit).
    rewrite Hnet. cbn. unfold raise_for_status.
    unfold error_status in Hs'. rewrite Hs'. cbn. by destruct f.
  - cbn [app get_markets_loop map length well_answered] in *.
    destruct Hw as [Ho Hw].
    rewrite M_bind_run, (tag_turn_run _ _ _ _ _ Ho).
    rewrite IH.
    + by rewrite <- app_assoc.
    + rewrite length_app. cbn. by replace (length log + 1)%nat with (S (length log)) by lia.
    + rewrite length_app. cbn. rewrite <- Hnet. f_equal. lia.
Qed.

(** Three tags, the second answered with status 200 and a body holding
    an integer of 5000 digits: [ValueError] ends the resolution, the
    market of the first tag is lost and the third tag is not asked. *)
Lemma get_markets_by_tags_decoder_error_escapes_witness :
  let market := {[ "question" := PyStr "Rain tomorrow?"; "conditionId" := PyStr "0xc1" ]}
                : pydict in
  let net := λ n rq, if Nat.eqb n 1 then Response 200 (Unloadable IntegerTooLong)
                     else serving (records [market]) n rq in
  well_answered net [PyStr "82"] 1000 0
  ∧ get_markets_by_tags net ([PyStr "82"] ++ PyStr "306" :: [PyStr "7"]) 1000 []
    = (Raise ValueError,
       [] ++ map (λ t, tag_request t 1000) [PyStr "82"] ++ [tag_request (PyStr "306") 1000]).
Proof.
  intros market net.
  assert (well_answered net [PyStr "82"] 1000 0) as Hw.
  { cbn. split; [| done]. right. by exists 200, [market]. }
  split; [exact Hw |].
  refine (proj1 (get_markets_by_tags_decoder_error_escapes net [PyStr "82"] [PyStr "7"]
                   (PyStr "306") 1000 [] 200 IntegerTooLong Hw _ _));
    [reflexivity | lia].
Defined.

(** ** One record per poll *)

Section Limit.
Context `{rt : PyRuntime}.

Lemma attempted_length new latest : (length (attempted new latest) ≤ length new)%nat.
Proof.
  revert latest; induction new as [| a new IH]; intros latest; cbn; [lia |].
  destruct (Multi.describe_activity a latest) as [l1 |]; cbn; [| lia].
  specialize (IH l1). lia.
Qed.

(** A document that is not an array yields no new record: its items are
    not objects, and [get] raises on the first of them. *)
Lemma multi_detect_non_array W doc new :
  (∀ items, doc ≠ DocArray items) → multi_detect W doc = Ok new → new = [].
Proof.
  intros Hdoc. unfold multi_detect.
  destruct doc as [items | o | v]; [by destruct (Hdoc items) | |]; cbn.
  - destruct (map_to_list o) as [| kv l]; cbn; [by intros [= <-] | discriminate].
  - destruct (py_truthy v); [| by intros [= <-]].
    destruct v as [| b | z | q | s | l | n |]; cbn; try discriminate.
    + destruct s; cbn; [by intros [= <-] | discriminate].
    + destruct l; cbn; [by intros [= <-] | discriminate].
Qed.

Lemma posts_of_length mode target messages :
  (length (posts_of mode target messages) ≤ length messages)%nat.
Proof.
  unfold posts_of. destruct target as [[token chat] |]; cbn; [| lia].
  by rewrite length_map.
Qed.

(** The loop classifies no more records than the array of the response
    carries. *)
Lemma multi_detect_bounded (o : http_outcome) (W : Z) (new : list pydict) :
  multi_detect W (multi_fetched o) = Ok new → (length new ≤ returned_records o)%nat.
Proof.
  intros Hd.
  destruct (multi_fetched o) as [items | m | v] eqn:Ef.
  2,3: apply multi_detect_non_array in Hd as ->; [cbn; lia | by intros items].
  apply multi_detect_sound in Hd as [_ Hlen]. specialize (Hlen items eq_refl).
  enough (length items ≤ returned_records o)%nat by lia.
  unfold multi_fetched, returned_records in *.
  destruct o as [| status [| d | f]]; try (injection Ef as <-; cbn; lia).
  destruct (error_status status); [injection Ef as <-; cbn; lia |]. by subst d.
Qed.

End Limit.

(** C9 (as stated, refuted): [main.py] takes what the response carries
    and cuts nothing off.  When the upstream answers the poll for
    [limit] 1 with three records, the turn classifies the three as new
    and sends three messages, not at most one. *)
Lemma at_most_one_message_fails :
  ¬ (∀ st' log',
       Multi.monitor_iteration (rt := posix_runtime)
         (serving (records [stamped (PyInt 300); stamped (PyInt 200); stamped (PyInt 100)]))
         (Some "token") (Some "chat") "0x37e4" Multi.initial_state []
       = (Ok st', log') →
       at_most_one_message "0x37e4" [] log').
Proof.
  intros H.
  specialize (H {| Multi.last_check_timestamp := 300;
                   Multi.activity_name := Some (PyStr "N/A") |}
                [ Multi.activity_request "0x37e4";
                  telegram_post (Some "HTML") "token" "chat" [stamped (PyInt 300)];
                  telegram_post (Some "HTML") "token" "chat" [stamped (PyInt 200)];
                  telegram_post (Some "HTML") "token" "chat" [stamped (PyInt 100)] ]).
  destruct H as (sent & Hlog & Hlen); [vm_compute; reflexivity |].
  apply (f_equal length) in Hlog. cbn in Hlog. lia.
Qed.

(** C9 (amended): every poll of [main.py] is one [GET] of the activity
    feed with the wallet as [user], [limit] 1, [sortBy] [TIMESTAMP] and
    [sortDirection] [DESC]; a turn logs that request and then messages
    only; it classifies as new, and sends messages for, no more records
    than the array of the response carries: at most one when the
    upstream returns at most one. *)
Theorem turn_reports_no_more_than_returned `{rt : PyRuntime}
    (net : nat → request → http_outcome) (telegram_bot_token telegram_chat_id : option string)
    (wallet : string) (st : Multi.monitor_state) (log : list request) :
  let poll := Get "https://data-api.polymarket.com/activity"
                {[ "user" := PyStr wallet; "limit" := PyInt 1;
                   "sortBy" := PyStr "TIMESTAMP"; "sortDirection" := PyStr "DESC" ]} in
  let o := net (length log) poll in
  (Multi.get_user_activity net wallet log).2 = log ++ [poll]
  ∧ (∀ new,
       multi_detect (Multi.last_check_timestamp st) (multi_fetched o) = Ok new →
       (length new ≤ returned_records o)%nat)
  ∧ (∃ sent,
       (Multi.monitor_iteration net telegram_bot_token telegram_chat_id wallet st log).2
       = log ++ poll :: sent
       ∧ Forall (λ rq, is_get rq = false) sent
       ∧ (length sent ≤ returned_records o)%nat).
Proof.
  intros poll o. split_and!.
  - by rewrite multi_get_user_activity_run.
  - intros new. apply multi_detect_bounded.
  - rewrite multi_monitor_iteration_run. cbn zeta. fold poll o.
    eexists. split; [reflexivity |]. split.
    + unfold posts_of. destruct (telegram_target _ _) as [[token chat] |]; [| constructor].
      apply Forall_map, Forall_true. done.
    + etrans; [apply posts_of_length |]. rewrite length_map.
      unfold multi_attempted.
      destruct (multi_detect _ _) as [new |] eqn:Ed; [| cbn; lia].
      etrans; [apply attempted_length |]. by eapply multi_detect_bounded.
Qed.

(** * Further properties of the code *)

(** ** The relay and the fetchers *)

Lemma error_status_true (status : Z) : error_status status = true ↔ 400 ≤ status < 600.
Proof. unfold error_status. rewrite andb_true_iff, Z.leb_le, Z.ltb_lt. done. Qed.

Lemma error_status_false (status : Z) :
  error_status status = false ↔ ¬ (400 ≤ status < 600).
Proof. rewrite <- error_status_true. by destruct (error_status status). Qed.

(** X1: [send_telegram_message] never raises, whatever the relay does:
    it issues exactly one [POST], to the bot's [sendMessage] address and
    carrying the chat id, the text and the parse mode it was given, and
    returns [True] exactly when a response came back with a status that
    is not a 4xx or 5xx. *)
Theorem send_telegram_message_total
    (net : nat → request → http_outcome) (mode : option string)
    (bot_token chat : string) (message : list pydict) (log : list request) :
  ∃ sent : bool,
    send_telegram_message net mode bot_token chat message log
    = (Ok sent,
       log ++ [Post ("https://api.telegram.org/bot" +:+ bot_token +:+ "/sendMessage")
                 {| chat_id := chat; text := message; parse_mode := mode |}])
    ∧ (sent = true ↔
       ∃ status b,
         net (length log) (telegram_post mode bot_token chat message) = Response status b
         ∧ ¬ (400 ≤ status < 600)).
Proof.
  eexists. split; [apply send_telegram_message_run |].
  unfold delivered.
  destruct (net _ _) as [f | status b]; split.
  - discriminate.
  - by intros (? & ? & [=] & _).
  - intros H. exists status, b. split; [done |].
    by apply error_status_false, negb_true_iff.
  - intros (? & ? & [= <- <-] & H).
    by apply negb_true_iff, error_status_false.
Qed.

(** X2: [get_user_activity] of [main.py] issues exactly one request,
    the poll of the wallet, whatever the network does.  It returns the
    empty list when the poll fails as a [RequestException] (no response,
    an error status, a body that is not JSON) and the decoded document
    untouched when the response has a good status and a JSON body; when
    the decoder raises something else on the body of a response of good
    status, that exception passes the [except] and reaches the caller. *)
Theorem multi_get_user_activity_outcome
    (net : nat → request → http_outcome) (wallet : string) (log : list request) :
  ∃ r,
    Multi.get_user_activity net wallet log = (r, log ++ [Multi.activity_request wallet])
    ∧ (failed (net (length log) (Multi.activity_request wallet)) = true →
       r = Ok (DocArray []))
    ∧ (∀ status d,
         net (length log) (Multi.activity_request wallet) = Response status (Json d) →
         ¬ (400 ≤ status < 600) → r = Ok d)
    ∧ (∀ status f,
         net (length log) (Multi.activity_request wallet) = Response status (Unloadable f) →
         ¬ (400 ≤ status < 600) →
         r = Raise (load_exn f) ∧ is_RequestException (load_exn f) = false).
Proof.
  eexists. split; [apply multi_get_user_activity_run |]. split_and!.
  - intros Hf. unfold multi_polled.
    by rewrite (failed_loaded _ Hf), (failed_fetched _ Hf).
  - intros status d -> Hs%error_status_false.
    unfold multi_polled, escaping, multi_fetched. by rewrite Hs.
  - intros status f -> Hs%error_status_false.
    unfold multi_polled, escaping. rewrite Hs. split; [done | by destruct f].
Qed.




(** X4: with no list of condition ids, or an empty one,
    [get_user_activity] of [get_specific_activity.py] does not filter.
    It issues its one request and returns the empty list when the poll
    fails as a [RequestException], the decoded document untouched,
    activities of every market included, when the response has a good
    status and a JSON body; what the decoder raises otherwise on the
    body of a response of good status reaches the caller. *)
Theorem single_get_user_activity_unfiltered
    (net : nat → request → http_outcome) (wallet : string)
    (ids : option (list pyval)) (log : list request) :
  ids = None ∨ ids = Some [] →
  ∃ r,
    Single.get_user_activity net wallet ids log
    = (r, log ++ [Single.activity_request wallet])
    ∧ (failed (net (length log) (Single.activity_request wallet)) = true →
       r = Ok (DocArray []))
    ∧ (∀ status d,
         net (length log) (Single.activity_request wallet) = Response status (Json d) →
         ¬ (400 ≤ status < 600) → r = Ok d)
    ∧ (∀ status f,
         net (length log) (Single.activity_request wallet) = Response status (Unloadable f) →
         ¬ (400 ≤ status < 600) →
         r = Raise (load_exn f) ∧ is_RequestException (load_exn f) = false).
Proof.
  intros Hids. eexists. split; [apply single_get_user_activity_run |]. split_and!.
  - unfold failed, single_fetched.
    destruct (net _ _) as [| status [| d | f]]; try done;
      rewrite orb_false_r; by intros ->.
  - intros status d -> Hs%error_status_false. unfold single_fetched. rewrite Hs.
    by destruct Hids as [-> | ->].
  - intros status f -> Hs%error_status_false. unfold single_fetched. rewrite Hs.
    split; [done | by destruct f].
Qed.

Lemma single_get_user_activity_unfiltered_witness :
  let feed := records [{[ "conditionId" := PyStr "0xc2" ]}; stamped (PyInt 7)] in
  ((Some [] : option (list pyval)) = None ∨ Some [] = Some ([] : list pyval))
  ∧ Single.get_user_activity (serving feed) "0x37e4" (Some []) []
    = (Ok feed, [] ++ [Single.activity_request "0x37e4"]).
Proof.
  intros feed. split; [by right |].
  destruct (single_get_user_activity_unfiltered (serving feed) "0x37e4" (Some []) []
              (or_intror eq_refl)) as (r & -> & _ & H & _).
  by rewrite (H 200 feed eq_refl ltac:(lia)).
Defined.

(** ** Looking a market up by its condition id *)

Section ConditionLookup.
Variable net : nat → request → http_outcome.

(** What [get_markets_by_condition_id] makes of the answer to its
    request. *)
Lemma get_markets_by_condition_id_run condition_id log :
  Multi.get_markets_by_condition_id net condition_id log
  = (match net (length log) (Multi.condition_request condition_id) with
     | Response status (Json d) =>
         if error_status status then Ok None
         else match d with
              | DocArray (ItemObj market :: _) | DocObject market =>
                  Ok (Some (market_info market))
              | DocArray (ItemVal _ :: _) | DocScalar (PyList (_ :: _)) =>
                  Raise AttributeError
              | DocArray [] | DocScalar _ => Ok None
              end
     | Response status (Unloadable f) =>
         if error_status status then Ok None else Raise (load_exn f)
     | _ => Ok None
     end,
     log ++ [Multi.condition_request condition_id]).
Proof.
  unfold Multi.get_markets_by_condition_id, try_except_M.
  rewrite M_bind_run. unfold send_request.
  destruct (net _ _) as [[] | status b]; cbn; try reflexivity.
  unfold raise_for_status, error_status.
  destruct ((400 <=? status) && (status <? 600)); cbn; [by destruct b |].
  destruct b as [| d | f]; cbn; [reflexivity | | by destruct f].
  destruct d as [[| [market | v] items] | market | v]; cbn; try reflexivity.
  destruct v as [| | | | | [| v l] | |]; reflexivity.
Qed.
End ConditionLookup.

(** X5: when its request fails (no response, an error status, a body
    that is not JSON), [get_markets_by_condition_id] raises nothing and
    returns [None], having issued its one request. *)
Theorem get_markets_by_condition_id_failed
    (net : nat → request → http_outcome) (condition_id : string) (log : list request) :
  failed (net (length log) (Multi.condition_request condition_id)) = true →
  Multi.get_markets_by_condition_id net condition_id log
  = (Ok None, log ++ [Multi.condition_request condition_id]).
Proof.
  intros Hf. rewrite get_markets_by_condition_id_run. f_equal.
  unfold failed in Hf. destruct (net _ _) as [| status [| d | f]]; try reflexivity;
    rewrite orb_false_r in Hf; by rewrite Hf.
Qed.

Lemma get_markets_by_condition_id_failed_witness :
  failed (unreachable 0%nat (Multi.condition_request "0xc1")) = true
  ∧ Multi.get_markets_by_condition_id unreachable "0xc1" []
    = (Ok None, [] ++ [Multi.condition_request "0xc1"]).
Proof.
  split; [reflexivity |].
  by apply (get_markets_by_condition_id_failed unreachable "0xc1" []).
Defined.



(** X7: when [get_markets_by_condition_id] returns a descriptor, the
    response had a good status and its body was a market object, or a
    list that starts with one; the descriptor has the four keys
    [question], [condition_id], [market_slug] and [title] and no other,
    and they hold that market's [question], [conditionId], [marketSlug]
    and [title], [None] for a field the upstream left out. *)
Theorem market_descriptor_shape
    (net : nat → request → http_outcome) (condition_id : string) (log log' : list request)
    (info : pydict) :
  Multi.get_markets_by_condition_id net condition_id log = (Ok (Some info), log') →
  ∃ status market,
    (net (length log) (Multi.condition_request condition_id)
     = Response status (Json (DocObject market))
     ∨ ∃ others,
         net (length log) (Multi.condition_request condition_id)
         = Response status (Json (DocArray (ItemObj market :: others))))
    ∧ ¬ (400 ≤ status < 600)
    ∧ dom info = ({[ "question"; "condition_id"; "market_slug"; "title" ]} : gset string)
    ∧ info !! "question" = Some (default PyNone (market !! "question"))
    ∧ info !! "condition_id" = Some (default PyNone (market !! "conditionId"))
    ∧ info !! "market_slug" = Some (default PyNone (market !! "marketSlug"))
    ∧ info !! "title" = Some (default PyNone (market !! "title")).
Proof.
  rewrite get_markets_by_condition_id_run. intros H. injection H as H _.
  assert (∃ status market,
            (net (length log) (Multi.condition_request condition_id)
             = Response status (Json (DocObject market))
             ∨ ∃ others,
                 net (length log) (Multi.condition_request condition_id)
                 = Response status (Json (DocArray (ItemObj market :: others))))
            ∧ error_status status = false
            ∧ info = market_info market) as (status & market & Hnet & Hs & ->).
  { destruct (net _ _) as [| status [| d | f]]; try discriminate.
    - destruct (error_status status) eqn:Hs; [discriminate |].
      destruct d as [[| [market | v] items] | market | v]; try discriminate.
      + injection H as <-. exists status, market. split; [right; by eexists | done].
      + injection H as <-. exists status, market. split; [by left | done].
      + destruct v as [| | | | | [| v l] | |]; discriminate.
    - destruct (error_status status); discriminate. }
  exists status, market. split; [exact Hnet |].
  split; [by apply error_status_false |]. split.
  - unfold market_info. rewrite !dom_insert_L, dom_singleton_L. set_solver.
  - unfold market_info, dict_get. by split_and!.
Qed.

(** A list of two markets: the descriptor is that of the first, without
    its [volume], and with [None] for the slug and the title it lacks. *)
Lemma market_descriptor_shape_witness :
  let market := {[ "question" := PyStr "Rain tomorrow?"; "conditionId" := PyStr "0xc1";
                   "volume" := PyInt 12 ]} : pydict in
  let other := {[ "question" := PyStr "Snow?" ]} : pydict in
  let net := serving (DocArray [ItemObj market; ItemObj other]) in
  Multi.get_markets_by_condition_id net "0xc1" []
  = (Ok (Some (market_info market)), [Multi.condition_request "0xc1"])
  ∧ ∃ status market',
      (net 0%nat (Multi.condition_request "0xc1") = Response status (Json (DocObject market'))
       ∨ ∃ others,
           net 0%nat (Multi.condition_request "0xc1")
           = Response status (Json (DocArray (ItemObj market' :: others))))
      ∧ ¬ (400 ≤ status < 600)
      ∧ dom (market_info market)
        = ({[ "question"; "condition_id"; "market_slug"; "title" ]} : gset string)
      ∧ market_info market !! "question" = Some (default PyNone (market' !! "question"))
      ∧ market_info market !! "condition_id"
        = Some (default PyNone (market' !! "conditionId"))
      ∧ market_info market !! "market_slug" = Some (default PyNone (market' !! "marketSlug"))
      ∧ market_info market !! "title" = Some (default PyNone (market' !! "title")).
Proof.
  intros market other net.
  assert (Multi.get_markets_by_condition_id net "0xc1" []
          = (Ok (Some (market_info market)), [Multi.condition_request "0xc1"])) as Hrun
    by reflexivity.
  split; [exact Hrun |].
  exact (market_descriptor_shape _ _ _ _ _ Hrun).
Defined.

(** ** The markets of the tags, and the watch list made of them *)

Section TagEntries.
Variable net : nat → request → http_outcome.

(** The inner loop of [get_markets_by_tags]: what it returns are entries
    of the tag, and it raises [AttributeError] on an item that is not an
    object. *)
Lemma entries_sound tag_id (items : list json_item) :
  match mapM (λ market,
                question ← item_get market "question";
                condition_id ← item_get market "conditionId";
                mret ({[ "question" := question; "condition_id" := condition_id;
                         "tag_id" := tag_id ]} : pydict)) items with
  | Ok found =>
      Forall (λ e, ∃ market, e = market_entry tag_id market) found
      ∧ ∀ v, ItemVal v ∉ items
  | Raise e => e = AttributeError ∧ ∃ v, ItemVal v ∈ items
  end.
Proof.
  induction items as [| x items IH]; cbn [mapM].
  - split; [constructor |]. by intros v ?%elem_of_nil.
  - destruct x as [market | v]; cbn.
    + destruct (mapM _ items) as [found | e]; cbn.
      * destruct IH as [Hall Hno]. split.
        -- constructor; [by exists market | done].
        -- intros v [? | ?]%elem_of_cons; [done | by eapply Hno].
      * destruct IH as [-> [v Hv]]. split; [done |]. exists v. by right.
    + split; [done |]. exists v. by left.
Qed.

Lemma fetch_tag_markets_sound tag_id limit log found log' :
  fetch_tag_markets net tag_id limit log = (Ok found, log') →
  Forall (λ e, ∃ market, e = market_entry tag_id market) found.
Proof.
  unfold fetch_tag_markets. rewrite M_bind_run. unfold send_request.
  destruct (net _ _) as [| status b]; [discriminate |].
  rewrite M_bind_run, lift_run.
  destruct (raise_for_status status); [| discriminate].
  rewrite M_bind_run, lift_run.
  destruct (response_json b) as [d |]; [| discriminate].
  rewrite M_bind_run, lift_run.
  destruct (py_iter d) as [items |]; [| discriminate].
  rewrite lift_run. pose proof (entries_sound tag_id items) as H.
  destruct (mapM _ items); [| discriminate].
  intros [= <- _]. apply H.
Qed.

Lemma get_markets_loop_sound tag_ids limit all_markets log out log' :
  get_markets_loop net tag_ids limit all_markets log = (Ok out, log') →
  ∃ added, out = all_markets ++ added
           ∧ Forall (λ e, ∃ tag_id market, tag_id ∈ tag_ids ∧ e = market_entry tag_id market)
               added.
Proof.
  revert all_markets log; induction tag_ids as [| tag_id rest IH];
    intros all_markets log; cbn [get_markets_loop].
  - intros [= <- _]. exists []. by rewrite app_nil_r.
  - rewrite M_bind_run. unfold try_except_M at 1. rewrite M_bind_run.
    destruct (fetch_tag_markets net tag_id limit log) as [[found | e] log1] eqn:Ef.
    + rewrite M_ret_run. intros (added & -> & Hall)%IH.
      apply fetch_tag_markets_sound in Ef.
      exists (found ++ added). rewrite app_assoc. split; [done |].
      apply Forall_app. split.
      * eapply Forall_impl; [exact Ef |]. intros e [m ->]. exists tag_id, m.
        split; [by left | done].
      * eapply Forall_impl; [exact Hall |]. intros e (t & m & Ht & ->). exists t, m.
        split; [by right | done].
    + destruct (is_RequestException e); [| discriminate].
      rewrite M_ret_run. intros (added & -> & Hall)%IH.
      exists added. split; [done |].
      eapply Forall_impl; [exact Hall |]. intros e' (t & m & Ht & ->). exists t, m.
      split; [by right | done].
Qed.
End TagEntries.

(** X8: whatever the network answers, every entry [get_markets_by_tags]
    returns has the three keys [question], [condition_id] and [tag_id]
    and no other, and its [tag_id] is one of the tag ids asked for. *)
Theorem market_entries_shape
    (net : nat → request → http_outcome) (tag_ids : list pyval) (limit : Z)
    (log log' : list request) (markets : list pydict) (entry : pydict) :
  get_markets_by_tags net tag_ids limit log = (Ok markets, log') →
  entry ∈ markets →
  dom entry = ({[ "question"; "condition_id"; "tag_id" ]} : gset string)
  ∧ ∃ tag_id, tag_id ∈ tag_ids ∧ entry !! "tag_id" = Some tag_id.
Proof.
  unfold get_markets_by_tags. intros (added & -> & Hall)%get_markets_loop_sound Hin.
  cbn in Hin. rewrite Forall_forall in Hall.
  destruct (Hall _ Hin) as (tag_id & market & Htag & ->). split.
  - unfold market_entry. rewrite !dom_insert_L, dom_singleton_L. set_solver.
  - by exists tag_id.
Qed.

Lemma market_entries_shape_witness :
  let market := {[ "question" := PyStr "Rain tomorrow?"; "conditionId" := PyStr "0xc1";
                   "volume" := PyInt 12 ]} : pydict in
  let entry := market_entry (PyStr "306") market in
  get_markets_by_tags (serving (records [market])) [PyStr "82"; PyStr "306"] 1000 []
  = (Ok [market_entry (PyStr "82") market; entry],
     [tag_request (PyStr "82") 1000; tag_request (PyStr "306") 1000])
  ∧ dom entry = ({[ "question"; "condition_id"; "tag_id" ]} : gset string).
Proof.
  intros market entry.
  assert (get_markets_by_tags (serving (records [market])) [PyStr "82"; PyStr "306"] 1000 []
          = (Ok [market_entry (PyStr "82") market; entry],
             [tag_request (PyStr "82") 1000; tag_request (PyStr "306") 1000])) as Hrun
    by reflexivity.
  split; [exact Hrun |].
  refine (proj1 (market_entries_shape _ _ _ _ _ _ entry Hrun _)).
  right. by left.
Defined.

(** X9: [get_markets_by_tags] catches [RequestException] only.  When the
    body of a tag's response decodes to something whose items are not
    all objects (an error object, whose items are its keys, or an array
    with a scalar in it), [AttributeError] escapes the whole resolution:
    the markets found so far are lost and the tags after it are not
    asked. *)
Theorem get_markets_by_tags_raises_on_non_object
    (net : nat → request → http_outcome) (before after : list pyval) (tag_id : pyval)
    (limit : Z) (log : list request) (status : Z) (d : json_doc)
    (items : list json_item) (v : pyval) :
  well_answered net before limit (length log) →
  net (length log + length before)%nat (tag_request tag_id limit)
  = Response status (Json d) →
  ¬ (400 ≤ status < 600) →
  py_iter d = Ok items →
  ItemVal v ∈ items →
  get_markets_by_tags net (before ++ tag_id :: after) limit log
  = (Raise AttributeError,
     log ++ map (λ t, tag_request t limit) before ++ [tag_request tag_id limit]).
Proof.
  intros Hw Hnet Hs%error_status_false Hiter Hin. unfold get_markets_by_tags.
  generalize (@nil pydict) as all_markets. revert log Hw Hnet.
  induction before as [| t before IH]; intros log Hw Hnet all_markets.
  - cbn [app get_markets_loop map length] in *.
    rewrite Nat.add_0_r in Hnet.
    rewrite M_bind_run. unfold try_except_M, fetch_tag_markets.
    rewrite !M_bind_run. unfold send_request. fold (tag_request tag_id limit).
    rewrite Hnet. cbn. unfold raise_for_status.
    unfold error_status in Hs. rewrite Hs. cbn.
    repeat first [rewrite M_bind_run | rewrite lift_run]. rewrite Hiter.
    rewrite lift_run.
    pose proof (entries_sound tag_id items) as H.
    destruct (mapM _ items) as [found | e].
    + destruct H as [_ H]. by destruct (H v).
    + destruct H as [-> _]. reflexivity.
  - cbn [app get_markets_loop map length well_answered] in *.
    destruct Hw as [Ho Hw].
    rewrite M_bind_run, (tag_turn_run _ _ _ _ _ Ho).
    rewrite IH.
    + by rewrite <- app_assoc.
    + rewrite length_app. cbn. by replace (length log + 1)%nat with (S (length log)) by lia.
    + rewrite length_app. cbn. rewrite <- Hnet. f_equal. lia.
Qed.

Lemma get_markets_by_tags_raises_on_non_object_witness :
  let market := {[ "question" := PyStr "Rain tomorrow?"; "conditionId" := PyStr "0xc1" ]}
                : pydict in
  let problem := DocObject {[ "error" := PyStr "rate limited" ]} in
  let net := λ n rq, if Nat.eqb n 1 then Response 200 (Json problem)
                     else serving (records [market]) n rq in
  well_answered net [PyStr "82"] 1000 0
  ∧ py_iter problem = Ok [ItemVal (PyStr "error")]
  ∧ get_markets_by_tags net ([PyStr "82"] ++ PyStr "306" :: [PyStr "7"]) 1000 []
    = (Raise AttributeError,
       [] ++ map (λ t, tag_request t 1000) [PyStr "82"] ++ [tag_request (PyStr "306") 1000]).
Proof.
  intros market problem net.
  assert (well_answered net [PyStr "82"] 1000 0) as Hw.
  { cbn. split; [| done]. right. by exists 200, [market]. }
  split; [exact Hw |]. split; [reflexivity |].
  apply (get_markets_by_tags_raises_on_non_object net [PyStr "82"] [PyStr "7"]
           (PyStr "306") 1000 [] 200 problem [ItemVal (PyStr "error")] (PyStr "error"));
    [exact Hw | reflexivity | lia | reflexivity | by left].
Defined.

Section WatchList.


End WatchList.

(** The resolution of the two tags of [main] when both requests fail. *)
Lemma both_tags_failed
    (net : nat → request → http_outcome) (log : list request) :
  failed (net (length log) (tag_request (PyStr "82") 1000)) = true →
  failed (net (S (length log)) (tag_request (PyStr "306") 1000)) = true →
  get_markets_by_tags net [PyStr "82"; PyStr "306"] 1000 log
  = (Ok (contributions net [PyStr "82"; PyStr "306"] 1000 (length log)),
     log ++ [tag_request (PyStr "82") 1000; tag_request (PyStr "306") 1000]).
Proof.
  intros H82 H306.
  unfold get_markets_by_tags. rewrite get_markets_loop_run; [done |].
  cbn. split_and!; [by left | by left | done].
Qed.


(** X11: when the requests of both tags fail, [main] of
    [get_specific_activity.py] starts its monitor with an empty list of
    condition ids, and the first poll of that monitor, like every later
    one, is not filtered: the activity of the wallet in every market is
    fetched. *)
Theorem single_main_without_markets_watches_everything `{rt : PyRuntime}
    (net : nat → request → http_outcome) (started : Z) (clock : list Z)
    (log : list request) :
  failed (net (length log) (tag_request (PyStr "82") 1000)) = true →
  failed (net (S (length log)) (tag_request (PyStr "306") 1000)) = true →
  let log' := log ++ [tag_request (PyStr "82") 1000; tag_request (PyStr "306") 1000] in
  let monitor :=
    Single.monitor_user_trades net
      (Some "8479150225:AAFp17cedT3sL8EO-5Ns8y2WyO4pU9XlHJE") (Some "-5280096124")
      "0x37e4728b3c4607fb2b3b205386bb1d1fb1a8c991" [] started clock log' in
  Single.main net started clock log = (Single.Ran monitor.1, monitor.2)
  ∧ ∀ wallet status d log'',
      net (length log'') (Single.activity_request wallet) = Response status (Json d) →
      ¬ (400 ≤ status < 600) →
      Single.get_user_activity net wallet (Some []) log''
      = (Ok d, log'' ++ [Single.activity_request wallet]).
Proof.
  intros H82 H306 log' monitor. split.
  - unfold Single.main.
    rewrite (both_tags_failed net log H82 H306).
    cbn [contributions]. rewrite !markets_of_failed by done. cbn.
    fold log'. fold monitor. by destruct monitor.
  - intros wallet status d log'' Hnet Hs%error_status_false.
    rewrite single_get_user_activity_run, Hnet. unfold single_fetched. by rewrite Hs.
Qed.

Lemma single_main_without_markets_watches_everything_witness :
  let feed := records [{[ "conditionId" := PyStr "0xc2"; "timestamp" := PyInt 7 ]}] in
  let net := λ n rq, if (n <? 2)%nat then Response 503 NotJSON else serving feed n rq in
  failed (net 0%nat (tag_request (PyStr "82") 1000)) = true
  ∧ failed (net 1%nat (tag_request (PyStr "306") 1000)) = true
  ∧ Single.main (rt := posix_runtime) net 5 [10] []
    = (Single.Ran (Ok 10),
       [ tag_request (PyStr "82") 1000; tag_request (PyStr "306") 1000;
         Single.activity_request "0x37e4728b3c4607fb2b3b205386bb1d1fb1a8c991";
         telegram_post None "8479150225:AAFp17cedT3sL8EO-5Ns8y2WyO4pU9XlHJE" "-5280096124"
           [{[ "conditionId" := PyStr "0xc2"; "timestamp" := PyInt 7 ]}] ]).
Proof.
  intros feed net. split; [reflexivity |]. split; [reflexivity |].
  rewrite (proj1 (single_main_without_markets_watches_everything (rt := posix_runtime)
                    net 5 [10] [] eq_refl eq_refl)).
  vm_compute. reflexivity.
Defined.

(** ** Turn after turn *)

Section Turns.
Context `{rt : PyRuntime}.
Variable net : nat → request → http_outcome.
Variables telegram_bot_token telegram_chat_id : option string.

Lemma posts_are_not_gets mode target messages :
  List.filter is_get (posts_of mode target messages) = [].
Proof.
  unfold posts_of. destruct target as [[token chat] |]; [| done].
  induction messages as [| m messages IH]; [done | exact IH].
Qed.

(** What a completed turn of [main.py] leaves behind. *)
Lemma multi_turn_completed wallet st log st' log' :
  Multi.monitor_iteration net telegram_bot_token telegram_chat_id wallet st log
  = (Ok st', log') →
  Multi.last_check_timestamp st ≤ Multi.last_check_timestamp st'
  ∧ is_Some (Multi.activity_name st')
  ∧ (Multi.activity_name st = None →
     ∃ a new,
       multi_detect (Multi.last_check_timestamp st)
         (multi_fetched (net (length log) (Multi.activity_request wallet)))
       = Ok (a :: new))
  ∧ ∃ sent, log' = log ++ Multi.activity_request wallet :: sent
            ∧ List.filter is_get sent = [].
Proof.
  intros (_ & H & ->)%multi_turn_ok.
  unfold multi_iteration_result in H.
  destruct (multi_detect _ _) as [new0 |]; cbn in H; [| discriminate].
  destruct new0 as [| a new].
  - destruct (Multi.activity_name st) as [name |] eqn:En; cbn in H; [| discriminate].
    injection H as <-. rewrite En. split_and!; [lia | by eexists | done |].
    eexists. split; [reflexivity | apply posts_are_not_gets].
  - destruct (multi_notify_result (a :: new) _ _) as [[latest name] |] eqn:E;
      cbn in H; [| discriminate].
    destruct name as [name |]; cbn in H; [| discriminate].
    injection H as <-. cbn.
    apply notify_result_latest in E as (-> & _ & _).
    split_and!; [apply max_timestamp_ge | by eexists | by eexists _, _ |].
    eexists. split; [reflexivity | apply posts_are_not_gets].
Qed.
End Turns.

(** X12: over any number of turns of [monitor_user_trades] of [main.py]
    that complete, the watermark never decreases, [activity_name] stays
    assigned once it is, the requests already issued stay in the log in
    their order, and exactly one poll is issued per turn, every other
    request being a message. *)
Theorem multi_turns_invariant `{rt : PyRuntime}
    (net : nat → request → http_outcome) (telegram_bot_token telegram_chat_id : option string)
    (wallet : string) (cycles : nat) (st st' : Multi.monitor_state)
    (log log' : list request) :
  Multi.iterate net telegram_bot_token telegram_chat_id cycles wallet st log = (Ok st', log') →
  Multi.last_check_timestamp st ≤ Multi.last_check_timestamp st'
  ∧ (is_Some (Multi.activity_name st) → is_Some (Multi.activity_name st'))
  ∧ ∃ sent, log' = log ++ sent
            ∧ List.filter is_get sent = replicate cycles (Multi.activity_request wallet).
Proof.
  revert st log; induction cycles as [| n IH]; intros st log; cbn [Multi.iterate].
  - intros [= <- <-]. split_and!; [lia | done |]. exists []. by rewrite app_nil_r.
  - rewrite M_bind_run.
    destruct (Multi.monitor_iteration _ _ _ wallet st log) as [[st1 |] log1] eqn:E1;
      [| discriminate].
    apply multi_turn_completed in E1 as (Hw & Hname & _ & sent1 & -> & Hgets).
    intros (Hw' & Hname' & sent & -> & Hgets')%IH.
    split_and!; [lia | by intros _; apply Hname' |].
    exists (Multi.activity_request wallet :: sent1 ++ sent).
    split; [by rewrite <- app_assoc |].
    cbn. by rewrite List.filter_app, Hgets, Hgets'.
Qed.

Lemma multi_turns_invariant_witness :
  let wallet := "0x37e4728b3c4607fb2b3b205386bb1d1fb1a8c991" in
  let net := serving (records [stamped (PyInt 300)]) in
  Multi.iterate (rt := posix_runtime) net (Some "token") (Some "chat") 3 wallet
    Multi.initial_state []
  = (Ok {| Multi.last_check_timestamp := 300; Multi.activity_name := Some (PyStr "N/A") |},
     [ Multi.activity_request wallet;
       telegram_post (Some "HTML") "token" "chat" [stamped (PyInt 300)];
       Multi.activity_request wallet; Multi.activity_request wallet ])
  ∧ 0 ≤ 300.
Proof.
  intros wallet net.
  assert (Multi.iterate (rt := posix_runtime) net (Some "token") (Some "chat") 3 wallet
            Multi.initial_state []
          = (Ok {| Multi.last_check_timestamp := 300;
                   Multi.activity_name := Some (PyStr "N/A") |},
             [ Multi.activity_request wallet;
               telegram_post (Some "HTML") "token" "chat" [stamped (PyInt 300)];
               Multi.activity_request wallet; Multi.activity_request wallet ])) as Hrun
    by (vm_compute; reflexivity).
  split; [exact Hrun |].
  exact (proj1 (multi_turns_invariant _ _ _ _ _ _ _ _ _ Hrun)).
Defined.

(** X13: the first turn of a monitor of [main.py] completes only when it
    classifies at least one record as new: [activity_name] is assigned
    nowhere else, and the two branches without a new record read it.  A
    turn that completes always leaves it assigned. *)
Theorem multi_first_turn_needs_a_new_record `{rt : PyRuntime}
    (net : nat → request → http_outcome) (telegram_bot_token telegram_chat_id : option string)
    (wallet : string) (st' : Multi.monitor_state) (log log' : list request) :
  Multi.monitor_iteration net telegram_bot_token telegram_chat_id wallet
    Multi.initial_state log = (Ok st', log') →
  is_Some (Multi.activity_name st')
  ∧ ∃ a new,
      multi_detect 0 (multi_fetched (net (length log) (Multi.activity_request wallet)))
      = Ok (a :: new).
Proof.
  intros (_ & Hname & Hnew & _)%multi_turn_completed. split; [done |].
  by apply Hnew.
Qed.

Lemma multi_first_turn_needs_a_new_record_witness :
  let wallet := "0x37e4728b3c4607fb2b3b205386bb1d1fb1a8c991" in
  let net := serving (records [stamped (PyInt 300)]) in
  Multi.monitor_iteration (rt := posix_runtime) net None None wallet Multi.initial_state []
  = (Ok {| Multi.last_check_timestamp := 300; Multi.activity_name := Some (PyStr "N/A") |},
     [Multi.activity_request wallet])
  ∧ ∃ a new,
      multi_detect (rt := posix_runtime) 0
        (multi_fetched (net 0%nat (Multi.activity_request wallet)))
      = Ok (a :: new).
Proof.
  intros wallet net.
  assert (Multi.monitor_iteration (rt := posix_runtime) net None None wallet
            Multi.initial_state []
          = (Ok {| Multi.last_check_timestamp := 300;
                   Multi.activity_name := Some (PyStr "N/A") |},
             [Multi.activity_request wallet])) as Hrun by (vm_compute; reflexivity).
  split; [exact Hrun |].
  exact (proj2 (multi_first_turn_needs_a_new_record _ _ _ _ _ _ _ Hrun)).
Defined.

(** X14: without both a bot token and a chat id (either missing or
    empty) no turn of either program sends a message: the only request
    of a turn is its poll. *)
Theorem no_bot_no_message `{rt : PyRuntime}
    (net : nat → request → http_outcome) (telegram_bot_token telegram_chat_id : option string)
    (wallet : string) (ids : list pyval) (now W : Z) (st : Multi.monitor_state)
    (log : list request) :
  telegram_bot_token = None ∨ telegram_bot_token = Some ""
  ∨ telegram_chat_id = None ∨ telegram_chat_id = Some "" →
  (Multi.monitor_iteration net telegram_bot_token telegram_chat_id wallet st log).2
  = log ++ [Multi.activity_request wallet]
  ∧ (Single.monitor_iteration net telegram_bot_token telegram_chat_id wallet ids now W log).2
    = log ++ [Single.activity_request wallet].
Proof.
  intros Hbot.
  assert (telegram_target telegram_bot_token telegram_chat_id = None) as Ht.
  { unfold telegram_target.
    destruct Hbot as [-> | [-> | [-> | ->]]].
    - done.
    - by destruct telegram_chat_id.
    - by destruct telegram_bot_token.
    - destruct telegram_bot_token as [t |]; [| done]. cbn. by rewrite andb_false_r. }
  rewrite multi_monitor_iteration_run, single_monitor_iteration_run. cbn zeta.
  by rewrite Ht.
Qed.

Lemma no_bot_no_message_witness :
  ((Some "token" : option string) = None ∨ Some "token" = Some ""
   ∨ (None : option string) = None ∨ (None : option string) = Some "")
  ∧ (Multi.monitor_iteration (rt := posix_runtime) (serving (records scenario_feed))
       (Some "token") None "0x37e4" Multi.initial_state []).2
    = [] ++ [Multi.activity_request "0x37e4"].
Proof.
  split; [right; right; by left |].
  refine (proj1 (no_bot_no_message (rt := posix_runtime) (serving (records scenario_feed))
                   (Some "token") None "0x37e4" [] 0 0 Multi.initial_state [] _)).
  right; right; by left.
Defined.

(** When the loop that builds the message completes, [int] has accepted
    the timestamp of every record that has one. *)
Lemma describe_loop_converts `{rt : PyRuntime} (new : list pydict) (a : pydict) :
  succeeds (Single.describe_loop new) = true →
  a ∈ new →
  py_truthy (timestamp_of a) = true →
  coercible (timestamp_of a) = true.
Proof.
  intros Hok Hin Ht. induction new as [| b new IH]; [by apply elem_of_nil in Hin |].
  cbn [Single.describe_loop] in Hok.
  destruct (Single.describe_activity b) as [[] | e] eqn:Eb; [| discriminate].
  apply elem_of_cons in Hin as [-> | Hin]; [| by apply IH].
  clear IH Hok. unfold Single.describe_activity, timestamp_of, dict_has, dict_get in *.
  destruct (py_float (dict_get_default b "size" _)); cbn in Eb; [| discriminate].
  destruct (py_float (dict_get_default b "price" _)); cbn in Eb; [| discriminate].
  destruct (b !! "timestamp") as [v |]; [| discriminate]. cbn in Eb.
  unfold coercible. cbn. destruct (py_int v); [done | discriminate].
Qed.

(** X15: a turn of [get_specific_activity.py] sends at most one message,
    and every record that message reports has a truthy timestamp that is
    coercible to an integer and strictly greater than the watermark the
    turn started with. *)
Theorem single_reports_only_newer_records `{rt : PyRuntime}
    (net : nat → request → http_outcome) (telegram_bot_token telegram_chat_id : option string)
    (wallet : string) (ids : list pyval) (now W : Z) (log : list request) :
  ∃ sent,
    (Single.monitor_iteration net telegram_bot_token telegram_chat_id
       wallet ids now W log).2
    = log ++ Single.activity_request wallet :: sent
    ∧ (length sent ≤ 1)%nat
    ∧ ∀ a, a ∈ reported sent →
           py_truthy (timestamp_of a) = true ∧ claimed_new W a = true.
Proof.
  rewrite single_monitor_iteration_run. cbn zeta.
  eexists. split; [reflexivity |]. split.
  - etrans; [apply posts_of_length |]. unfold single_messages.
    destruct (_ ≫= _) as [new |]; [| cbn; lia].
    destruct (nonempty new && _); cbn; lia.
  - intros a Hin%reported_posts. unfold single_messages in Hin.
    destruct (single_fetched _ _) as [doc |]; cbn in Hin; [| by apply elem_of_nil in Hin].
    destruct (single_detect W doc) as [new |] eqn:E; [| by apply elem_of_nil in Hin].
    destruct (nonempty new && _) eqn:Hsent; cbn in Hin; [| by apply elem_of_nil in Hin].
    apply andb_true_iff in Hsent as [_ Hok].
    rewrite app_nil_r in Hin.
    apply single_detect_sound in E as [Hall _]. rewrite Forall_forall in Hall.
    specialize (Hall a Hin).
    pose proof (describe_loop_converts new a Hok Hin (single_appends_truthy _ _ Hall))
      as Hc.
    rewrite single_appends_claimed in Hall by (intros Hinf; by rewrite Hinf in Hc).
    by apply andb_true_iff in Hall.
Qed.

(** X16: when the turns of [monitor_user_trades] of
    [get_specific_activity.py] complete, the watermark it ends with is
    the reading of the clock at the start of the last turn, and the
    starting time when there was no turn: nothing fetched enters it. *)
Theorem single_watermark_is_last_clock `{rt : PyRuntime}
    (net : nat → request → http_outcome) (telegram_bot_token telegram_chat_id : option string)
    (wallet : string) (ids : list pyval) (started : Z) (clock : list Z) (W' : Z)
    (log log' : list request) :
  Single.monitor_user_trades net telegram_bot_token telegram_chat_id wallet ids
    started clock log = (Ok W', log') →
  W' = default started (last clock).
Proof.
  unfold Single.monitor_user_trades.
  revert started log; induction clock as [| now clock IH]; intros started log;
    cbn [Single.iterate].
  - by intros [= <- _].
  - rewrite M_bind_run, single_monitor_iteration_run. cbn zeta.
    unfold single_iteration_result.
    destruct (single_fetched _ _); cbn; [| discriminate].
    destruct (single_detect _ _); cbn; [| discriminate].
    destruct (Single.describe_loop _); cbn; [| discriminate].
    intros H. apply IH in H. subst W'. destruct clock as [| z clock]; [reflexivity |].
    rewrite last_cons_cons.
    destruct (proj2 (last_is_Some (z :: clock)) ltac:(done)) as [y ->]. reflexivity.
Qed.

Lemma single_watermark_is_last_clock_witness :
  Single.monitor_user_trades (rt := posix_runtime) (serving (records scenario_feed))
    None None "0x37e4" [] 100 [110; 120; 130] []
  = (Ok 130, [Single.activity_request "0x37e4"; Single.activity_request "0x37e4";
              Single.activity_request "0x37e4"])
  ∧ 130 = default 100 (last [110; 120; 130]).
Proof.
  assert (Single.monitor_user_trades (rt := posix_runtime) (serving (records scenario_feed))
            None None "0x37e4" [] 100 [110; 120; 130] []
          = (Ok 130, [Single.activity_request "0x37e4"; Single.activity_request "0x37e4";
                      Single.activity_request "0x37e4"])) as Hrun
    by (vm_compute; reflexivity).
  split; [exact Hrun |].
  exact (single_watermark_is_last_clock _ _ _ _ _ _ _ _ _ _ Hrun).
Defined.

(** X17: in [main.py], when a turn that fetches a single record with an
    integer timestamp above the watermark completes, the watermark
    becomes that timestamp, and a next turn that is served the same
    record again sends nothing and leaves the state as it is: a newer
    record is notified once. *)
Theorem multi_newer_record_notified_once `{rt : PyRuntime}
    (net : nat → request → http_outcome) (telegram_bot_token telegram_chat_id : option string)
    (wallet : string) (st st1 : Multi.monitor_state) (log log1 : list request)
    (a : pydict) (t : Z) :
  timestamp_of a = PyInt t →
  0 ≤ Multi.last_check_timestamp st < t →
  multi_fetched (net (length log) (Multi.activity_request wallet)) = records [a] →
  multi_fetched (net (length log1) (Multi.activity_request wallet)) = records [a] →
  Multi.monitor_iteration net telegram_bot_token telegram_chat_id wallet st log
  = (Ok st1, log1) →
  Multi.last_check_timestamp st1 = t
  ∧ Multi.monitor_iteration net telegram_bot_token telegram_chat_id wallet st1 log1
    = (Ok st1, log1 ++ [Multi.activity_request wallet]).
Proof.
  intros Hts HW Hfeed Hfeed1 Hrun.
  assert (∀ W, multi_detect W (records [a]) = Ok (if t =? W then [] else [a])) as Hdetect.
  { intros W. unfold multi_detect, records. cbn.
    fold (timestamp_of a). rewrite Hts. cbn.
    destruct (Z.eqb_spec t 0) as [-> | _]; [lia |]. cbn.
    unfold py_ne. cbn. unfold Qeq_bool. cbn. rewrite !Z.mul_1_r.
    by destruct (t =? W). }
  pose proof (multi_turn_completed _ _ _ _ _ _ _ _ Hrun) as (_ & [name Hname] & _ & _).
  assert (escaping (net (length log1) (Multi.activity_request wallet)) = None) as Hesc1.
  { destruct (escaping _) as [e |] eqn:Ee; [| done].
    apply escaping_fetched in Ee. rewrite Ee in Hfeed1. discriminate. }
  apply multi_turn_ok in Hrun as (_ & Hres & _). cbn zeta in Hres. rewrite Hfeed in Hres.
  unfold multi_iteration_result in Hres. rewrite Hdetect in Hres.
  destruct (Z.eqb_spec t (Multi.last_check_timestamp st)) as [-> | _]; [lia |].
  cbn [mbind res_bind] in Hres.
  destruct (multi_notify_result [a] _ _) as [[latest name'] |] eqn:E;
    cbn in Hres; [| discriminate].
  destruct (read_local name'); cbn in Hres; [| discriminate].
  injection Hres as <-. cbn [Multi.last_check_timestamp Multi.activity_name] in *.
  apply notify_result_latest in E as (-> & _ & _).
  unfold max_timestamp. cbn. rewrite Hts. cbn.
  split; [lia |].
  rewrite multi_monitor_iteration_run. cbn zeta.
  rewrite multi_turn_result_loaded by done.
  cbn [Multi.last_check_timestamp]. rewrite Hfeed1.
  unfold multi_iteration_result, multi_attempted.
  cbn [Multi.last_check_timestamp Multi.activity_name]. rewrite Hdetect.
  replace (Multi.last_check_timestamp st `max` t) with t by lia.
  rewrite Z.eqb_refl, Hname. cbn.
  by destruct (telegram_target _ _) as [[] |].
Qed.

Lemma multi_newer_record_notified_once_witness :
  let wallet := "0x37e4728b3c4607fb2b3b205386bb1d1fb1a8c991" in
  let net := serving (records [stamped (PyInt 300)]) in
  let st1 := {| Multi.last_check_timestamp := 300;
                Multi.activity_name := Some (PyStr "N/A") |} in
  let log1 := [ Multi.activity_request wallet;
                telegram_post (Some "HTML") "token" "chat" [stamped (PyInt 300)] ] in
  0 ≤ 0 < 300
  ∧ Multi.monitor_iteration (rt := posix_runtime) net (Some "token") (Some "chat") wallet
      Multi.initial_state [] = (Ok st1, log1)
  ∧ Multi.monitor_iteration (rt := posix_runtime) net (Some "token") (Some "chat") wallet
      st1 log1 = (Ok st1, log1 ++ [Multi.activity_request wallet]).
Proof.
  intros wallet net st1 log1.
  assert (Multi.monitor_iteration (rt := posix_runtime) net (Some "token") (Some "chat")
            wallet Multi.initial_state [] = (Ok st1, log1)) as Hrun
    by (vm_compute; reflexivity).
  split; [lia |]. split; [exact Hrun |].
  refine (proj2 (multi_newer_record_notified_once (rt := posix_runtime) net
                   (Some "token") (Some "chat") wallet Multi.initial_state st1 [] log1
                   (stamped (PyInt 300)) 300 eq_refl _ eq_refl eq_refl Hrun)).
  cbn. lia.
Defined.

(** ** Sizes and prices that do not convert *)

Section Conversions.
Context `{rt : PyRuntime}.

Lemma null_size_raises a :
  a !! "size" = Some PyNone →
  Single.describe_activity a = Raise TypeError
  ∧ ∀ latest, Multi.describe_activity a latest = Raise TypeError.
Proof.
  intros Hsize. unfold Single.describe_activity, Multi.describe_activity, dict_get_default.
  by rewrite Hsize.
Qed.

Lemma describe_loop_raises new a e :
  a ∈ new → Single.describe_activity a = Raise e →
  ∃ e', Single.describe_loop new = Raise e'.
Proof.
  intros Hin Ha. induction new as [| b new IH]; [by apply elem_of_nil in Hin |].
  cbn [Single.describe_loop]. apply elem_of_cons in Hin as [<- | Hin].
  - rewrite Ha. by eexists.
  - destruct (Single.describe_activity b) as [[] |]; cbn; [by apply IH | by eexists].
Qed.

Lemma notify_result_raises new latest name a :
  a ∈ new → (∀ l, Multi.describe_activity a l = Raise TypeError) →
  (∃ e, multi_notify_result new latest name = Raise e) ∧ a ∉ attempted new latest.
Proof.
  intros Hin Ha. revert latest name; induction new as [| b new IH]; intros latest name;
    [by apply elem_of_nil in Hin |].
  cbn [multi_notify_result attempted].
  destruct (Multi.describe_activity b latest) as [l1 |] eqn:Eb; cbn.
  - apply elem_of_cons in Hin as [<- | Hin]; [by rewrite Ha in Eb |].
    destruct (IH Hin l1 (Some (name_of b))) as [He Hno]. split; [done |].
    intros [-> | ?]%elem_of_cons; [by rewrite Ha in Eb | done].
  - split; [by eexists | by intros ?%elem_of_nil].
Qed.
End Conversions.

(** X19: in both programs [float(activity.get('size', 0))] is outside
    every [try]: when a record classified as new carries a [size] that
    is JSON [null], the turn raises.  [get_specific_activity.py] then
    sends no message at all; [main.py] sends none that reports that
    record. *)
Theorem null_size_ends_the_turn `{rt : PyRuntime}
    (net : nat → request → http_outcome) (telegram_bot_token telegram_chat_id : option string)
    (wallet : string) (ids : list pyval) (now W : Z) (st : Multi.monitor_state)
    (log : list request) (a : pydict) :
  a !! "size" = Some PyNone →
  (∀ new,
     single_fetched (Some ids) (net (length log) (Single.activity_request wallet))
       ≫= single_detect W = Ok new →
     a ∈ new →
     ∃ e, Single.monitor_iteration net telegram_bot_token telegram_chat_id
            wallet ids now W log
          = (Raise e, log ++ [Single.activity_request wallet]))
  ∧ (∀ new,
       multi_detect (Multi.last_check_timestamp st)
         (multi_fetched (net (length log) (Multi.activity_request wallet))) = Ok new →
       a ∈ new →
       ∃ e sent,
         Multi.monitor_iteration net telegram_bot_token telegram_chat_id wallet st log
         = (Raise e, log ++ Multi.activity_request wallet :: sent)
         ∧ a ∉ reported sent).
Proof.
  intros [Hs Hm]%null_size_raises. split.
  - intros new Hnew Hin. rewrite single_monitor_iteration_run. cbn zeta.
    unfold single_iteration_result, single_messages.
    destruct (single_fetched _ _) as [doc |]; cbn in Hnew |- *; [| discriminate].
    rewrite Hnew. cbn.
    destruct (describe_loop_raises new a _ Hin Hs) as [e ->]. cbn.
    rewrite andb_false_r. exists e.
    by destruct (telegram_target _ _) as [[] |].
  - intros new Hnew Hin.
    assert (escaping (net (length log) (Multi.activity_request wallet)) = None) as Hesc.
    { destruct (escaping _) as [e |] eqn:Ee; [| done].
      apply escaping_fetched in Ee. rewrite Ee in Hnew.
      injection Hnew as <-. by apply elem_of_nil in Hin. }
    rewrite multi_monitor_iteration_run. cbn zeta.
    rewrite multi_turn_result_loaded by done.
    unfold multi_iteration_result, multi_attempted. rewrite Hnew. cbn [mbind res_bind].
    destruct (notify_result_raises new (Multi.last_check_timestamp st)
                (Multi.activity_name st) a Hin Hm) as [[e He] Hno].
    destruct new as [| b new]; [by apply elem_of_nil in Hin |].
    rewrite He. exists e. eexists. split; [reflexivity |].
    intros Hrep%reported_posts. by rewrite concat_singletons in Hrep.
Qed.

Lemma null_size_ends_the_turn_witness :
  let a := {[ "timestamp" := PyInt 300; "size" := PyNone ]} : pydict in
  let feed := records [stamped (PyInt 200); a] in
  a !! "size" = Some PyNone
  ∧ (∃ e, Single.monitor_iteration (rt := posix_runtime) (serving feed)
            (Some "token") (Some "chat") "0x37e4" [] 110 100 []
          = (Raise e, [] ++ [Single.activity_request "0x37e4"]))
  ∧ ∃ e sent,
      Multi.monitor_iteration (rt := posix_runtime) (serving feed)
        (Some "token") (Some "chat") "0x37e4" Multi.initial_state []
      = (Raise e, [] ++ Multi.activity_request "0x37e4" :: sent)
      ∧ a ∉ reported sent.
Proof.
  intros a feed. split; [reflexivity |].
  destruct (null_size_ends_the_turn (rt := posix_runtime) (serving feed)
              (Some "token") (Some "chat") "0x37e4" [] 110 100 Multi.initial_state [] a
              eq_refl) as [Hs Hm].
  split.
  - apply (Hs [stamped (PyInt 200); a]); [reflexivity |]. right. by left.
  - apply (Hm [stamped (PyInt 200); a]); [reflexivity |]. right. by left.
Defined.

(** ** Records the filters drop, and polls that fail *)





(** X22: the monitor of [get_specific_activity.py] outlives failed
    polls: over any number of turns whose polls all fail it raises
    nothing, sends nothing, issues one poll per turn and ends with the
    last reading of the clock as watermark. *)
Theorem single_monitor_survives_failed_polls `{rt : PyRuntime}
    (net : nat → request → http_outcome) (telegram_bot_token telegram_chat_id : option string)
    (wallet : string) (ids : list pyval) (started : Z) (clock : list Z)
    (log : list request) :
  (∀ n, failed (net n (Single.activity_request wallet)) = true) →
  Single.monitor_user_trades net telegram_bot_token telegram_chat_id wallet ids
    started clock log
  = (Ok (default started (last clock)),
     log ++ replicate (length clock) (Single.activity_request wallet)).
Proof.
  intros Hfail. unfold Single.monitor_user_trades.
  revert started log; induction clock as [| now clock IH]; intros started log;
    cbn [Single.iterate length replicate].
  - by rewrite app_nil_r.
  - rewrite M_bind_run, single_turn_survives_failed_poll by done.
    rewrite IH, <- app_assoc. cbn [app]. f_equal.
    destruct clock as [| z clock]; [reflexivity |].
    rewrite last_cons_cons.
    destruct (proj2 (last_is_Some (z :: clock)) ltac:(done)) as [y ->]. reflexivity.
Qed.

Lemma single_monitor_survives_failed_polls_witness :
  (∀ n, failed (unreachable n (Single.activity_request "0x37e4")) = true)
  ∧ Single.monitor_user_trades (rt := posix_runtime) unreachable (Some "token") (Some "chat")
      "0x37e4" [PyStr "0xc1"] 100 [110; 120] []
    = (Ok (default 100 (last [110; 120])),
       [] ++ replicate (length [110; 120]) (Single.activity_request "0x37e4")).
Proof.
  split; [done |].
  by apply (single_monitor_survives_failed_polls (rt := posix_runtime) unreachable).
Defined.

(** X23: once a turn of a monitor of [main.py] has reported a new
    activity, so that [activity_name] is assigned, the monitor outlives
    failed polls: over any number of turns whose polls all fail it
    raises nothing, sends nothing, issues one poll per turn and keeps
    its watermark. *)
Theorem multi_monitor_survives_failed_polls_once_named `{rt : PyRuntime}
    (net : nat → request → http_outcome) (telegram_bot_token telegram_chat_id : option string)
    (wallet : string) (cycles : nat) (W : Z) (name : pyval) (log : list request) :
  (∀ n, failed (net n (Multi.activity_request wallet)) = true) →
  let st := {| Multi.last_check_timestamp := W; Multi.activity_name := Some name |} in
  Multi.iterate net telegram_bot_token telegram_chat_id cycles wallet st log
  = (Ok st, log ++ replicate cycles (Multi.activity_request wallet)).
Proof.
  intros Hfail st. revert log; induction cycles as [| n IH]; intros log;
    cbn [Multi.iterate replicate].
  - by rewrite app_nil_r.
  - rewrite M_bind_run. unfold st at 1.
    rewrite multi_turn_survives_failed_poll_once_named by done.
    fold st. by rewrite IH, <- app_assoc.
Qed.

Lemma multi_monitor_survives_failed_polls_once_named_witness :
  (∀ n, failed (unreachable n (Multi.activity_request "0x37e4")) = true)
  ∧ Multi.iterate (rt := posix_runtime) unreachable (Some "token") (Some "chat") 2 "0x37e4"
      {| Multi.last_check_timestamp := 300; Multi.activity_name := Some (PyStr "N/A") |} []
    = (Ok {| Multi.last_check_timestamp := 300; Multi.activity_name := Some (PyStr "N/A") |},
       [] ++ replicate 2 (Multi.activity_request "0x37e4")).
Proof.
  split; [done |].
  by apply (multi_monitor_survives_failed_polls_once_named (rt := posix_runtime) unreachable).
Defined.
